(** * geneid-to-gene-details: a shallow embedding of
      [ncbi_geneid_to_ptlen-genelen.py]

    The script reads gene identifiers from a spreadsheet, asks NCBI Entrez for
    each gene's record and protein sequence, and writes a table of accession,
    gene length and protein length.

    The embedding keeps the three functions of the script
    ([read_email_from_config], [fetch_gene_data], [process_gene_list]) and
    models what they touch:
    - Python values that flow through the script as [pyval];
    - exceptions as a class plus the argument the exception was built with;
    - the file system as finite maps from paths to what [configparser] and
      [pandas] make of the file found there;
    - the remote service as transitions of an abstract world, so that two
      calls with the same argument may answer differently;
    - printing, the assignment to [Entrez.email] and the final [to_excel] as a
      trace of events. *)

From Stdlib Require Import ZArith Ascii String List Lia.
From stdpp Require Import base option list strings pretty gmap.

(** ** Exceptions *)

(** The classes the script distinguishes or that the modelled operations
    raise.  Everything here derives from Python's [Exception]; signals such as
    [KeyboardInterrupt] are not exceptions in that sense and are not
    represented. [OtherError] stands for any further class that derives from
    neither [FileNotFoundError] nor [KeyError]. *)
Inductive exn_class :=
  | FileNotFoundError
  | KeyError
  | IndexError
  | TypeError
  | ValueError
  | OSError
  | ConfigParserError
  | OtherError (name : string).

(** [Exn c arg] is [c(arg)]: the class and the argument it was raised with. *)
Inductive exn := Exn (c : exn_class) (arg : string).

Definition exn_cls (e : exn) : exn_class := let 'Exn c _ := e in c.

Global Instance exn_class_eq_dec : EqDecision exn_class.
Proof. solve_decision. Defined.
Global Instance exn_eq_dec : EqDecision exn.
Proof. solve_decision. Defined.

(** A computation that returns a value or raises. *)
Definition result (A : Type) : Type := exn + A.

Global Instance result_ret : MRet result := λ A a, inr a.
Global Instance result_bind : MBind result := λ A B f m,
  match m with
  | inl e => inl e
  | inr a => f a
  end.

Definition raise {A} (c : exn_class) (arg : string) : result A := inl (Exn c arg).

Definition LF : string := String "010"%char "".

(** ** Python values *)

(** Integers, strings, lists and dictionaries with string keys: what
    [Entrez.read] builds from the XML of a gene record, and the integer and
    text cells [pandas] reads from a sheet.  Floating-point cells are outside
    the model. *)
#[local] Unset Elimination Schemes.
Inductive pyval :=
  | PInt (z : Z)
  | PStr (s : string)
  | PList (l : list pyval)
  | PDict (d : list (string * pyval)).
#[local] Set Elimination Schemes.

(** A subscript: [v[i]] or [v['key']]. *)
Inductive subscript :=
  | Idx (i : nat)
  | Key (k : string).

Fixpoint dict_get (d : list (string * pyval)) (k : string) : option pyval :=
  match d with
  | [] => None
  | (k', v) :: d' => if decide (k' = k) then Some v else dict_get d' k
  end.

Definition char_at (s : string) (i : nat) : option string :=
  match String.get i s with
  | Some c => Some (String c "")
  | None => None
  end.

(** [v[sub]] with Python's failures: a missing key is a [KeyError], an index
    past the end an [IndexError], and subscripting with the wrong kind of
    subscript, or subscripting an integer, a [TypeError]. *)
Definition getitem (v : pyval) (sub : subscript) : result pyval :=
  match v, sub with
  | PList l, Idx i =>
      match l !! i with
      | Some x => mret x
      | None => raise IndexError "list index out of range"
      end
  | PList _, Key _ => raise TypeError "list indices must be integers or slices, not str"
  | PDict d, Key k =>
      match dict_get d k with
      | Some x => mret x
      | None => raise KeyError k
      end
  | PDict _, Idx i => raise KeyError (pretty i)
  | PStr s, Idx i =>
      match char_at s i with
      | Some c => mret (PStr c)
      | None => raise IndexError "string index out of range"
      end
  | PStr _, Key _ => raise TypeError "string indices must be integers, not 'str'"
  | PInt _, _ => raise TypeError "'int' object is not subscriptable"
  end.

(** A chain of subscripts, left to right: [v[a][b][c]]. *)
Fixpoint getpath (v : pyval) (path : list subscript) : result pyval :=
  match path with
  | [] => mret v
  | sub :: path' => x ← getitem v sub; getpath x path'
  end.

(** *** [int(...)] *)

Definition is_space (a : ascii) : bool :=
  let n := nat_of_ascii a in
  ((9 <=? n) && (n <=? 13) || (n =? 32))%nat.

Definition digit_of (a : ascii) : option Z :=
  let n := nat_of_ascii a in
  if ((48 <=? n) && (n <=? 57))%nat then Some (Z.of_nat n - 48)%Z else None.

Fixpoint lstrip (s : string) : string :=
  match s with
  | String a s' => if is_space a then lstrip s' else s
  | EmptyString => EmptyString
  end.

Fixpoint rstrip (s : string) : string :=
  match s with
  | String a s' =>
      match rstrip s' with
      | EmptyString => if is_space a then EmptyString else String a EmptyString
      | t => String a t
      end
  | EmptyString => EmptyString
  end.

(** Decimal digits, single underscores allowed between digits. [prev] tells
    whether the previous character was a digit. *)
Fixpoint parse_digits (s : string) (acc : Z) (prev : bool) : option Z :=
  match s with
  | EmptyString => if prev then Some acc else None
  | String a s' =>
      match digit_of a with
      | Some d => parse_digits s' (10 * acc + d)%Z true
      | None =>
          if decide (a = "_"%char)
          then (if prev then parse_digits s' acc false else None)
          else None
      end
  end.

Definition parse_int (s : string) : option Z :=
  match rstrip (lstrip s) with
  | String "-" t => Z.opp <$> parse_digits t 0%Z false
  | String "+" t => parse_digits t 0%Z false
  | t => parse_digits t 0%Z false
  end.

(** [int(v)]: the integer itself; a text parsed in base ten, with blanks
    (tab to carriage return, and the space) around it, a sign, and single
    underscores between digits; anything else a [TypeError].  The text is
    taken to be plain ASCII, shown between quotes in the error as it is, and
    shorter than the interpreter's limit on the digits of an integer
    literal. *)
Definition py_int (v : pyval) : result Z :=
  match v with
  | PInt z => mret z
  | PStr s =>
      match parse_int s with
      | Some z => mret z
      | None =>
          raise ValueError ("invalid literal for int() with base 10: '" +:+ s +:+ "'")
      end
  | PList _ =>
      raise TypeError
        "int() argument must be a string, a bytes-like object or a real number, not 'list'"
  | PDict _ =>
      raise TypeError
        "int() argument must be a string, a bytes-like object or a real number, not 'dict'"
  end.

(** ** The configuration reader *)

(** What [ConfigParser.read] finds at a path.  A path absent from the map is
    a file that does not exist; [Unopenable] is a file that is there and that
    [open] refuses; [Malformed] is a file over which the parser raises one of
    its own errors; [Undecodable] is a file that opens and whose bytes are
    not text in the encoding of the run, over which reading raises
    [UnicodeDecodeError], a [ValueError].  A parsed file is the mapping the
    parser presents through [config[section][option]]: for each section its
    options (those it inherits from [DEFAULT] included) with the values [get]
    delivers. *)
Inductive config_file :=
  | Unopenable
  | Malformed (msg : string)
  | Parsed (sections : gmap string (gmap string string))
  | Undecodable (msg : string).

(** [config = ConfigParser(); config.read(config_file)]: [read] catches
    [OSError] and nothing else. A file that cannot be opened (it does not
    exist, or [open] fails with any other [OSError]) is skipped without an
    error and leaves the parser empty; a file that is opened and rejected
    raises one of the parser's own errors; a file that cannot be decoded
    raises the decoding error. *)
Definition config_read (fs : gmap string config_file) (path : string)
  : result (gmap string (gmap string string)) :=
  match fs !! path with
  | None => mret ∅
  | Some Unopenable => mret ∅
  | Some (Malformed msg) => raise ConfigParserError msg
  | Some (Parsed sections) => mret sections
  | Some (Undecodable msg) => raise ValueError msg
  end.

(** [config[section][option]]: each subscript raises [KeyError] with the
    missing name. *)
Definition config_getitem (config : gmap string (gmap string string))
    (section option : string) : result string :=
  match config !! section with
  | None => raise KeyError section
  | Some proxy =>
      match proxy !! option with
      | None => raise KeyError option
      | Some value => mret value
      end
  end.

Definition config_missing_message (config_file : string) : string :=
  "Configuration file '" +:+ config_file +:+ "' not found. " +:+
  "Please create a 'config.ini' file with the following content:" +:+ LF +:+
  "[NCBI]" +:+ LF +:+
  "email = your_email@example.com".

Definition email_missing_message : string :=
  "The 'email' key is not found in the 'NCBI' section of the config file. " +:+
  "Please make sure the config file is correctly formatted.".

(** Lines 23-34. The two [except] clauses are tried in order on whatever the
    [try] block raised; anything else propagates. *)
Definition read_email_from_config (fs : gmap string config_file)
    (config_file : string) : result string :=
  match (config ← config_read fs config_file;
         config_getitem config "NCBI" "email") with
  | inr email => inr email
  | inl (Exn FileNotFoundError _) =>
      raise FileNotFoundError (config_missing_message config_file)
  | inl (Exn KeyError _) =>
      raise KeyError email_missing_message
  | inl e => inl e
  end.

(** ** Path names *)

(** [p.rfind(c)]: the greatest index of [c] in [p], or [-1]. *)
Fixpoint rfind (c : ascii) (p : string) : Z :=
  match p with
  | EmptyString => (-1)%Z
  | String a p' =>
      let r := rfind c p' in
      if (0 <=? r)%Z then (r + 1)%Z
      else if decide (a = c) then 0%Z else (-1)%Z
  end.

(** [p[:n]] and [p[n:]] for [0 <= n]. *)
Fixpoint str_take (n : nat) (p : string) : string :=
  match n, p with
  | S n', String a p' => String a (str_take n' p')
  | _, _ => EmptyString
  end.

Fixpoint str_drop (n : nat) (p : string) : string :=
  match n, p with
  | S n', String _ p' => str_drop n' p'
  | _, _ => p
  end.

(** The loop of [genericpath._splitext] that skips leading dots: does one of
    the [steps] characters from [filenameIndex] on differ from the dot? *)
Fixpoint splitext_scan (p : string) (filenameIndex steps : nat) : bool :=
  match steps with
  | O => false
  | S steps' =>
      match String.get filenameIndex p with
      | Some "."%char => splitext_scan p (S filenameIndex) steps'
      | _ => true
      end
  end.

(** [os.path.splitext] as [posixpath] defines it: separator [/], no
    alternative separator, extension separator [.]. *)
Definition splitext (p : string) : string * string :=
  let sepIndex := rfind "/" p in
  let dotIndex := rfind "." p in
  if (sepIndex <? dotIndex)%Z
     && splitext_scan p (Z.to_nat (sepIndex + 1)) (Z.to_nat (dotIndex - (sepIndex + 1)))
  then (str_take (Z.to_nat dotIndex) p, str_drop (Z.to_nat dotIndex) p)
  else (p, EmptyString).

(** Line 100. *)
Definition output_file_name (input_file : string) : string :=
  (splitext input_file).1 +:+ "_output.xlsx".

Global Arguments output_file_name : simpl never.

(** [posixpath.dirname]. *)
Fixpoint all_sep (s : string) : bool :=
  match s with
  | EmptyString => true
  | String a s' => if decide (a = "/"%char) then all_sep s' else false
  end.

Fixpoint rstrip_sep (s : string) : string :=
  match s with
  | String a s' =>
      match rstrip_sep s' with
      | EmptyString => if decide (a = "/"%char) then EmptyString else String a EmptyString
      | t => String a t
      end
  | EmptyString => EmptyString
  end.

Definition dirname (p : string) : string :=
  let i := (rfind "/" p + 1)%Z in
  let head := str_take (Z.to_nat i) p in
  if all_sep head then head else rstrip_sep head.

(** ** The spreadsheet *)

(** What [pandas.read_excel] makes of a path: absent from the map, the file
    does not exist; [Unreadable e], reading it raises [e]; [Sheet columns],
    a table given by its named columns. *)
Inductive excel_file :=
  | Unreadable (e : exn)
  | Sheet (columns : gmap string (list pyval)).

Definition read_excel (fs : gmap string excel_file) (path : string)
  : result (gmap string (list pyval)) :=
  match fs !! path with
  | None => raise FileNotFoundError ("[Errno 2] No such file or directory: '" +:+ path +:+ "'")
  | Some (Unreadable e) => inl e
  | Some (Sheet columns) => mret columns
  end.

(** [df[name].tolist()] *)
Definition column (df : gmap string (list pyval)) (name : string) : result (list pyval) :=
  match df !! name with
  | Some cells => mret cells
  | None => raise KeyError name
  end.

Record files := Files {
  config_files : gmap string config_file;
  excel_files : gmap string excel_file;
}.

(** ** Effects *)

(** The lines the script prints, each an f-string with its arguments. *)
Inductive line :=
  | GeneComplete (gene_id gene_length : Z)
  | AccessionComplete (protein_accession : pyval) (protein_length : Z)
  | ErrorProcessing (gene_id : pyval) (e : exn)
  | OutputSaved (output_file : string)
  | ErrorText (e : exn).

(** One row of the output table; [None] is Python's [None]. *)
Record row := Row {
  row_gene_id : pyval;
  row_accession : option pyval;
  row_gene_length : option Z;
  row_protein_length : option Z;
}.

Inductive event :=
  | Print (l : line)
  | SetEntrezEmail (email : string)
  | ToExcel (output_file : string) (data : list row).

(** The remote service and the clock, over a world [W] the script cannot
    inspect: the random pause, the gene lookup ([Entrez.efetch] on the gene
    database followed by [Entrez.read]) and the protein lookup
    ([Entrez.efetch] on the protein database followed by [SeqIO.read], giving
    the sequence). *)
Record remote (W : Type) := Remote {
  sleep_uniform : W → W;
  efetch_gene : Z → W → result pyval * W;
  efetch_protein : pyval → W → result string * W;
}.
Arguments sleep_uniform {W}.
Arguments efetch_gene {W}.
Arguments efetch_protein {W}.

(** A computation of the script: from a world to a result, the events it
    produced, and the world it leaves. *)
Definition M (W A : Type) : Type := W → result A * list event * W.

Global Instance M_ret {W} : MRet (M W) := λ A a w, (inr a, [], w).
Global Instance M_bind {W} : MBind (M W) := λ A B f m w,
  match m w with
  | (inl e, t, w') => (inl e, t, w')
  | (inr a, t, w') => let '(r, t', w'') := f a w' in (r, t ++ t', w'')
  end.

Definition lift {W A} (r : result A) : M W A := λ w, (r, [], w).
Definition emit {W} (ev : event) : M W unit := λ w, (inr tt, [ev], w).
Definition call {W A} (f : W → result A * W) : M W A :=
  λ w, let '(r, w') := f w in (r, [], w').
Definition pass {W} (f : W → W) : M W unit := λ w, (inr tt, [], f w).

(** [try: body; rest  except ...: handler]: [handler] runs on what [body]
    raises, [rest] on what it returns. *)
Definition try_except {W A B} (body : M W A) (handler : exn → M W B)
    (rest : A → M W B) : M W B := λ w,
  match body w with
  | (inl e, t, w') => let '(r, t', w'') := handler e w' in (r, t ++ t', w'')
  | (inr a, t, w') => let '(r, t', w'') := rest a w' in (r, t ++ t', w'')
  end.

(** ** The record fetcher *)

(** The subscript chains of lines 59-65. *)
Definition locus_path : list subscript :=
  [Idx 0; Key "Entrezgene_locus"; Idx 0].
Definition product_path : list subscript :=
  [Key "Gene-commentary_products"; Idx 0; Key "Gene-commentary_products"; Idx 0].
Definition genomic_coords_path : list subscript :=
  [Key "Gene-commentary_genomic-coords"; Idx 0; Key "Seq-loc_mix";
   Key "Seq-loc-mix"; Idx 0; Key "Seq-loc_int"; Key "Seq-interval"].
Definition seq_interval_path (field : string) : list subscript :=
  [Idx 0; Key "Entrezgene_locus"; Idx 0; Key "Gene-commentary_seqs"; Idx 0;
   Key "Seq-loc_int"; Key "Seq-interval"; Key field].

Section Script.
Context {W : Type} (R : remote W) (fs : files).

(** Lines 51-53: the random pause, then [gene_id = int(gene_id)]. *)
Definition fetch_convert (gene_id : pyval) : M W Z :=
  _ ← pass (sleep_uniform R);
  lift (py_int gene_id).

(** Lines 55-75, where [gene_id] is the integer of line 53. *)
Definition fetch_record (gene_id : Z) : M W (pyval * Z * Z) :=
  record ← call (efetch_gene R gene_id);
  locus ← lift (getpath record locus_path);
  product ← lift (getpath locus product_path);
  protein_accession ← lift (getitem product (Key "Gene-commentary_accession"));
  genomic_coords ← lift (getpath product genomic_coords_path);
  gene_end ← lift (getpath record (seq_interval_path "Seq-interval_to") ≫= py_int);
  gene_start ← lift (getpath record (seq_interval_path "Seq-interval_from") ≫= py_int);
  let gene_length := Z.abs (gene_end - gene_start) in
  _ ← emit (Print (GeneComplete gene_id gene_length));
  seq ← call (efetch_protein R protein_accession);
  let protein_length := Z.of_nat (String.length seq) in
  _ ← emit (Print (AccessionComplete protein_accession protein_length));
  mret (protein_accession, gene_length, protein_length).

(** Lines 77-79: [except Exception as e]. [gene_id] is what the variable
    holds when the exception arrives. *)
Definition fetch_failed (gene_id : pyval) (e : exn)
  : M W (option pyval * option Z * option Z) :=
  _ ← emit (Print (ErrorProcessing gene_id e));
  mret (None, None, None).

(** Lines 49-79. The [try] block is cut at line 53, where [gene_id] is
    rebound: the handler prints the cell as read when [int] fails and the
    integer afterwards. *)
Definition fetch_gene_data (gene_id : pyval)
  : M W (option pyval * option Z * option Z) :=
  try_except (fetch_convert gene_id) (fetch_failed gene_id) (λ n,
    try_except (fetch_record n) (fetch_failed (PInt n))
      (λ '(protein_accession, gene_length, protein_length),
         mret (Some protein_accession, Some gene_length, Some protein_length))).

(** The [try] block of lines 49-75 in one piece, and the value the variable
    [gene_id] holds when the handler of line 77 runs. *)
Definition fetch_try (gene_id : pyval) : M W (pyval * Z * Z) :=
  n ← fetch_convert gene_id;
  fetch_record n.

Definition gene_id_at_handler (gene_id : pyval) : pyval :=
  match py_int gene_id with
  | inr n => PInt n
  | inl _ => gene_id
  end.

(** ** The batch processor *)

(** Lines 96-98: the loop, [data] growing by one row per identifier. *)
Fixpoint fetch_rows (gene_ids : list pyval) (data : list row) : M W (list row) :=
  match gene_ids with
  | [] => mret data
  | gene_id :: gene_ids' =>
      '(accession, gene_len, protein_len) ← fetch_gene_data gene_id;
      fetch_rows gene_ids' (data ++ [Row gene_id accession gene_len protein_len])
  end.

(** Lines 89-103: the [try] block. Building the [DataFrame] and writing it
    with [to_excel] are taken to succeed: a write that fails is not
    represented, and what is proved of a run that writes is proved of a
    write that went through. *)
Definition process_body (input_file : string) : M W unit :=
  email ← lift (read_email_from_config (config_files fs) "config.ini");
  _ ← emit (SetEntrezEmail email);
  df ← lift (read_excel (excel_files fs) input_file);
  gene_ids ← lift (column df "Gene ID");
  data ← fetch_rows gene_ids [];
  let output_file := output_file_name input_file in
  _ ← emit (ToExcel output_file data);
  emit (Print (OutputSaved output_file)).

(** Lines 105-106: [except (FileNotFoundError, KeyError) as e: print(e)];
    any other exception leaves the function. *)
Definition process_handler (e : exn) : M W unit :=
  match exn_cls e with
  | FileNotFoundError | KeyError => emit (Print (ErrorText e))
  | _ => lift (inl e)
  end.

Definition process_gene_list (input_file : string) : M W unit :=
  try_except (process_body input_file) process_handler mret.

End Script.

(** A computation raises when its result is an exception. *)
Definition raises {W A} (m : M W A) (w : W) : Prop :=
  ∃ e t w', m w = (inl e, t, w').

(** What an observer of the run sees: the result and the events, not the
    world. *)
Definition observed {W A} (m : M W A) (w : W) : result A * list event := (m w).1.

(** A computation that does nothing to the outside but print. *)
Definition is_print (ev : event) : Prop := ∃ l, ev = Print l.

Definition prints_only {W A} (m : M W A) : Prop :=
  ∀ w, Forall is_print (m w).1.2.

(** A computation whose observable behaviour does not depend on the world. *)
Definition world_blind {W A} (m : M W A) : Prop :=
  ∀ w1 w2, observed m w1 = observed m w2.

(** A deterministic service: the answer to a lookup depends on what is asked
    only, not on when. *)
Definition deterministic {W} (R : remote W) : Prop :=
  (∀ gene_id w1 w2, (efetch_gene R gene_id w1).1 = (efetch_gene R gene_id w2).1) ∧
  (∀ accession w1 w2,
     (efetch_protein R accession w1).1 = (efetch_protein R accession w2).1).

(** ** Worked inputs *)

(** The record of the gene database reduced to the fields the script visits. *)
Definition gene_record (accession from to : string) : pyval :=
  PList [PDict [("Entrezgene_locus", PList [PDict [
    ("Gene-commentary_products", PList [PDict [
      ("Gene-commentary_products", PList [PDict [
        ("Gene-commentary_accession", PStr accession);
        ("Gene-commentary_genomic-coords", PList [PDict [
          ("Seq-loc_mix", PDict [("Seq-loc-mix", PList [PDict [
            ("Seq-loc_int", PDict [("Seq-interval", PDict [])])]])])]])]])]]);
    ("Gene-commentary_seqs", PList [PDict [
      ("Seq-loc_int", PDict [("Seq-interval", PDict [
        ("Seq-interval_from", PStr from);
        ("Seq-interval_to", PStr to)])])]])]])]].

Fixpoint residues (n : nat) : string :=
  match n with
  | O => EmptyString
  | S n' => String "M" (residues n')
  end.

(** A stub service with fixed answers. Gene 7157 has protein NP_000537.3 of
    393 residues on the interval 7661779..7687538; gene 672 has its interval
    the other way round; gene 1017 answers with a record that lacks the
    locus; gene 348 names a protein the protein database does not hold;
    anything else is refused. The world counts what has happened. *)
Definition stub : remote nat := {|
  sleep_uniform := S;
  efetch_gene := λ gene_id w,
    (if decide (gene_id = 7157%Z)
     then inr (gene_record "NP_000537.3" "7661779" "7687538")
     else if decide (gene_id = 672%Z)
     then inr (gene_record "NP_009225.1" "43125363" "43044294")
     else if decide (gene_id = 1017%Z) then inr (PList [PDict []])
     else if decide (gene_id = 348%Z)
     then inr (gene_record "NP_000032.1" "44905795" "44909392")
     else raise (OtherError "HTTPError") "HTTP Error 400: Bad Request", S w);
  efetch_protein := λ accession w,
    (match accession with
     | PStr "NP_000537.3" => inr (residues 393)
     | PStr "NP_009225.1" => inr (residues 1863)
     | _ => raise ValueError "No records found in handle"
     end, S w)
|}.

(** A service that answers every other call only. *)
Definition flaky : remote nat := {|
  sleep_uniform := S;
  efetch_gene := λ gene_id w,
    if Nat.even w then efetch_gene stub gene_id w
    else (raise OSError "Connection reset by peer", S w);
  efetch_protein := efetch_protein stub
|}.

(** A working directory with a usable [config.ini] and a sheet of five
    identifiers. *)
Definition ncbi_config : gmap string config_file :=
  {[ "config.ini" := Parsed {[ "NCBI" := {[ "email" := "lab@example.org" ]} ]} ]}.

Definition samples : files := {|
  config_files := ncbi_config;
  excel_files :=
    {[ "samples.xlsx" :=
         Sheet {[ "Gene ID" := [PInt 7157; PStr "x"; PInt 1017; PInt 5; PStr " 7_157 "] ]};
       "notes.xlsx" := Sheet {[ "Gene" := [PInt 7157] ]};
       "locked.xlsx" := Unreadable (Exn OSError "[Errno 13] Permission denied: 'locked.xlsx'") ]}
|}.

(** A [config.ini] whose [NCBI] section has no [email], and one without the
    section. *)
Definition config_without_email : gmap string config_file :=
  {[ "config.ini" := Parsed {[ "NCBI" := {[ "api_key" := "0123" ]} ]} ]}.

Definition config_without_section : gmap string config_file :=
  {[ "config.ini" := Parsed {[ "PubMed" := {[ "email" := "lab@example.org" ]} ]} ]}.

(** ** Further inputs and notions *)

(** A [config.ini] the parser rejects, and one that is not text. *)
Definition config_malformed : gmap string config_file :=
  {[ "config.ini" := Malformed "File contains no section headers." ]}.

Definition config_undecodable : gmap string config_file :=
  {[ "config.ini" :=
       Undecodable "'utf-8' codec can't decode byte 0xff in position 15: invalid start byte" ]}.

(** [posixpath.basename]: what follows the last separator. *)
Definition basename (p : string) : string :=
  str_drop (Z.to_nat (rfind "/" p + 1)) p.

Fixpoint lstrip_dots (s : string) : string :=
  match s with
  | String a s' => if decide (a = "."%char) then lstrip_dots s' else s
  | EmptyString => EmptyString
  end.

(** The extension in the words of [os.path.splitext], without its loop:
    everything from the last dot to the end, ignoring leading dots. A path
    has one when its file name, the leading dots taken off, still holds a
    dot. *)
Definition has_extension (p : string) : bool :=
  (0 <=? rfind "." (lstrip_dots (basename p)))%Z.

(** A gene record whose product has its accession and whose locus has its
    interval, but whose product carries no genomic coordinates. *)
Definition gene_record_without_coords (accession from to : string) : pyval :=
  PList [PDict [("Entrezgene_locus", PList [PDict [
    ("Gene-commentary_products", PList [PDict [
      ("Gene-commentary_products", PList [PDict [
        ("Gene-commentary_accession", PStr accession)]])]]);
    ("Gene-commentary_seqs", PList [PDict [
      ("Seq-loc_int", PDict [("Seq-interval", PDict [
        ("Seq-interval_from", PStr from);
        ("Seq-interval_to", PStr to)])])]])]])]].

Definition stub_without_coords : remote nat := {|
  sleep_uniform := S;
  efetch_gene := λ _ w,
    (inr (gene_record_without_coords "NP_000537.3" "7661779" "7687538"), S w);
  efetch_protein := efetch_protein stub
|}.

(** A sheet whose [Gene ID] column has no cell. *)
Definition empty_sheet : files := {|
  config_files := ncbi_config;
  excel_files := {[ "empty.xlsx" := Sheet {[ "Gene ID" := [] ]} ]}
|}.

(** The subscripts of lines 64-65 that follow [record[0]['Entrezgene_locus'][0]]. *)
Definition interval_in_locus_path (field : string) : list subscript :=
  [Key "Gene-commentary_seqs"; Idx 0; Key "Seq-loc_int"; Key "Seq-interval"; Key field].

(** A row is either all absent or all present, with lengths that are not
    negative. *)
Definition row_absent_or_complete (r : row) : Prop :=
  (row_accession r = None ∧ row_gene_length r = None ∧ row_protein_length r = None) ∨
  (∃ accession gene_length protein_length,
     row_accession r = Some accession ∧
     row_gene_length r = Some gene_length ∧
     row_protein_length r = Some protein_length ∧
     (0 ≤ gene_length)%Z ∧ (0 ≤ protein_length)%Z).

(** Whatever the computation returns satisfies [P]. *)
Definition returns_only {W A} (P : A → Prop) (m : M W A) : Prop :=
  ∀ w a t w', m w = (inr a, t, w') → P a.

(** * Properties *)

(** ** The configuration reader *)

Lemma config_read_parsed fs path sections :
  fs !! path = Some (Parsed sections) → config_read fs path = inr sections.
Proof. intros H. unfold config_read. by rewrite H. Qed.

Lemma config_read_absent fs path :
  fs !! path = None → config_read fs path = inr ∅.
Proof. intros H. unfold config_read. by rewrite H. Qed.

(** Every [KeyError] of the [try] block leaves the function as the one
    [KeyError] of line 33. *)
Lemma read_email_KeyError fs path sections arg :
  config_read fs path = inr sections →
  config_getitem sections "NCBI" "email" = inl (Exn KeyError arg) →
  read_email_from_config fs path = inl (Exn KeyError email_missing_message).
Proof.
  intros Hread Hget. unfold read_email_from_config.
  rewrite Hread. cbn. by rewrite Hget.
Qed.

(** C6: for a configuration file with section [NCBI] and key [email],
    [read_email_from_config] returns exactly the string stored under that
    key. *)
Theorem read_email_returns_stored_value
    (fs : gmap string config_file) (path : string)
    (sections : gmap string (gmap string string))
    (ncbi : gmap string string) (email : string) :
  fs !! path = Some (Parsed sections) →
  sections !! "NCBI" = Some ncbi →
  ncbi !! "email" = Some email →
  read_email_from_config fs path = inr email.
Proof.
  intros Hfile Hsec Hkey. unfold read_email_from_config.
  rewrite (config_read_parsed _ _ _ Hfile). cbn.
  unfold config_getitem. by rewrite Hsec, Hkey.
Qed.

Lemma read_email_returns_stored_value_witness :
  read_email_from_config ncbi_config "config.ini" = inr "lab@example.org".
Proof.
  apply (read_email_returns_stored_value ncbi_config "config.ini"
           {[ "NCBI" := {[ "email" := "lab@example.org" ]} ]}
           {[ "email" := "lab@example.org" ]});
    reflexivity.
Defined.

(** C5: a configuration file that exists and parses, whose [NCBI] section
    has no [email] key, makes [read_email_from_config] raise [KeyError] with
    the guidance of line 33. *)
Theorem read_email_key_missing
    (fs : gmap string config_file) (path : string)
    (sections : gmap string (gmap string string)) (ncbi : gmap string string) :
  fs !! path = Some (Parsed sections) →
  sections !! "NCBI" = Some ncbi →
  ncbi !! "email" = None →
  read_email_from_config fs path = inl (Exn KeyError email_missing_message).
Proof.
  intros Hfile Hsec Hkey.
  apply (read_email_KeyError fs path sections "email").
  - by apply config_read_parsed.
  - unfold config_getitem. by rewrite Hsec, Hkey.
Qed.

Lemma read_email_key_missing_witness :
  read_email_from_config config_without_email "config.ini"
  = inl (Exn KeyError email_missing_message).
Proof.
  apply (read_email_key_missing config_without_email "config.ini"
           {[ "NCBI" := {[ "api_key" := "0123" ]} ]} {[ "api_key" := "0123" ]});
    reflexivity.
Defined.

(** C10: a configuration file that exists and parses but has no [NCBI]
    section fails exactly as one whose [NCBI] section lacks the key: the same
    [KeyError] with the same message about the [email] key. *)
Theorem read_email_section_missing
    (fs fs' : gmap string config_file) (path path' : string)
    (sections sections' : gmap string (gmap string string))
    (ncbi : gmap string string) :
  fs !! path = Some (Parsed sections) →
  sections !! "NCBI" = None →
  fs' !! path' = Some (Parsed sections') →
  sections' !! "NCBI" = Some ncbi →
  ncbi !! "email" = None →
  read_email_from_config fs path = inl (Exn KeyError email_missing_message) ∧
  read_email_from_config fs path = read_email_from_config fs' path'.
Proof.
  intros Hfile Hsec Hfile' Hsec' Hkey.
  assert (read_email_from_config fs path
          = inl (Exn KeyError email_missing_message)) as Hfirst.
  { apply (read_email_KeyError fs path sections "NCBI").
    - by apply config_read_parsed.
    - unfold config_getitem. by rewrite Hsec. }
  split; [exact Hfirst|].
  rewrite Hfirst. symmetry.
  apply (read_email_KeyError fs' path' sections' "email").
  - by apply config_read_parsed.
  - unfold config_getitem. by rewrite Hsec', Hkey.
Qed.

Lemma read_email_section_missing_witness :
  read_email_from_config config_without_section "config.ini"
    = inl (Exn KeyError email_missing_message) ∧
  read_email_from_config config_without_section "config.ini"
    = read_email_from_config config_without_email "config.ini".
Proof.
  apply (read_email_section_missing config_without_section config_without_email
           "config.ini" "config.ini"
           {[ "PubMed" := {[ "email" := "lab@example.org" ]} ]}
           {[ "NCBI" := {[ "api_key" := "0123" ]} ]} {[ "api_key" := "0123" ]});
    reflexivity.
Defined.

(** C2 (as the code behaves): for a path at which no file exists,
    [read_email_from_config] raises the [KeyError] of line 33, not the
    [FileNotFoundError] of line 28: [ConfigParser.read] skips the missing
    file, and the first failure is the subscript [config['NCBI']]. *)
Theorem read_email_absent_file_raises_KeyError
    (fs : gmap string config_file) (path : string) :
  fs !! path = None →
  read_email_from_config fs path = inl (Exn KeyError email_missing_message) ∧
  read_email_from_config fs path
    ≠ inl (Exn FileNotFoundError (config_missing_message path)).
Proof.
  intros Hfile.
  assert (read_email_from_config fs path
          = inl (Exn KeyError email_missing_message)) as ->.
  { apply (read_email_KeyError fs path ∅ "NCBI").
    - by apply config_read_absent.
    - reflexivity. }
  split; [reflexivity | discriminate].
Qed.

Lemma read_email_absent_file_witness :
  read_email_from_config ∅ "config.ini" = inl (Exn KeyError email_missing_message) ∧
  read_email_from_config ∅ "config.ini"
    ≠ inl (Exn FileNotFoundError (config_missing_message "config.ini")).
Proof.
  apply (read_email_absent_file_raises_KeyError ∅ "config.ini"). reflexivity.
Defined.

(** ** The output file name *)

Section Paths.
Local Open Scope Z_scope.

Lemma append_String a p q : String a p +:+ q = String a (p +:+ q).
Proof. reflexivity. Qed.

Lemma append_Empty_r p : p +:+ EmptyString = p.
Proof. induction p as [|a p IH]; [reflexivity|]. by rewrite append_String, IH. Qed.

Lemma str_take_drop n p : str_take n p +:+ str_drop n p = p.
Proof.
  revert p. induction n as [|n IH]; intros [|a p]; simpl; try reflexivity.
  by rewrite append_String, IH.
Qed.

Lemma str_take_app n p q :
  (n ≤ String.length p)%nat → str_take n (p +:+ q) = str_take n p.
Proof.
  revert p. induction n as [|n IH]; intros [|a p] Hn; simpl in Hn; try lia.
  - by destruct q.
  - reflexivity.
  - rewrite append_String. simpl. rewrite IH; [reflexivity | lia].
Qed.

Lemma rfind_bounds c p : -1 ≤ rfind c p < Z.of_nat (String.length p).
Proof.
  induction p as [|a p IH]; simpl; [lia|].
  destruct (0 <=? rfind c p) eqn:Hr; [lia|].
  case_decide; lia.
Qed.

Lemma rfind_negative c p : rfind c p < 0 → rfind c p = -1.
Proof. pose proof (rfind_bounds c p). lia. Qed.

Lemma rfind_app c p q :
  rfind c (p +:+ q) =
    if 0 <=? rfind c q then Z.of_nat (String.length p) + rfind c q
    else rfind c p.
Proof.
  induction p as [|a p IH].
  - change (EmptyString +:+ q) with q. simpl.
    destruct (0 <=? rfind c q) eqn:Hq; [lia|].
    apply rfind_negative. lia.
  - rewrite append_String. cbn [rfind String.length]. rewrite IH.
    pose proof (rfind_bounds c q).
    destruct (0 <=? rfind c q) eqn:Hq.
    + assert ((0 <=? Z.of_nat (String.length p) + rfind c q) = true) as ->
        by (apply Z.leb_le; lia).
      lia.
    + reflexivity.
Qed.

(** The text from the last [c] on starts with [c] and has no other. *)
Lemma rfind_drop c p :
  0 ≤ rfind c p →
  ∃ t, str_drop (Z.to_nat (rfind c p)) p = String c t ∧ rfind c t = -1.
Proof.
  induction p as [|a p IH]; simpl; [lia|].
  destruct (0 <=? rfind c p) eqn:Hr.
  - intros _. apply Z.leb_le in Hr.
    replace (Z.to_nat (rfind c p + 1)) with (S (Z.to_nat (rfind c p))) by lia.
    simpl. by apply IH.
  - case_decide as Hac; [|lia]. intros _. subst a. simpl.
    exists p. split; [reflexivity|]. apply rfind_negative. lia.
Qed.

(** Past the last [c] there is no [c]. *)
Lemma rfind_drop_after c n p :
  rfind c p < Z.of_nat n → rfind c (str_drop n p) = -1.
Proof.
  revert p. induction n as [|n IH]; intros p Hlt.
  - destruct p; simpl str_drop; apply rfind_negative; lia.
  - destruct p as [|a p]; [reflexivity|]. simpl str_drop. apply IH.
    simpl in Hlt. pose proof (rfind_bounds c p).
    destruct (0 <=? rfind c p) eqn:Hr; lia.
Qed.

Lemma rfind_tail c a t : rfind c (String a t) = -1 → rfind c t = -1.
Proof.
  simpl. pose proof (rfind_bounds c t).
  destruct (0 <=? rfind c t) eqn:Hr; lia.
Qed.

(** A suffix without separator does not change the directory. *)
Lemma dirname_app root suffix :
  rfind "/" suffix = -1 → dirname (root +:+ suffix) = dirname root.
Proof.
  intros Hsuffix. unfold dirname.
  rewrite rfind_app, Hsuffix. change (0 <=? -1) with false. cbv iota.
  rewrite str_take_app; [reflexivity|].
  pose proof (rfind_bounds "/" root). lia.
Qed.

(** What [splitext] returns: the two parts make up the path, and the
    extension is empty or is the last dot of the path with what follows
    it, which holds no separator. *)
Lemma splitext_parts p :
  p = (splitext p).1 +:+ (splitext p).2 ∧
  ((splitext p).2 = EmptyString ∨
   ∃ t, (splitext p).2 = String "." t ∧ rfind "." t = -1 ∧ rfind "/" t = -1).
Proof.
  unfold splitext.
  destruct (rfind "/" p <? rfind "." p) eqn:Hdot; simpl andb;
    [destruct (splitext_scan _ _ _)|]; simpl.
  - apply Z.ltb_lt in Hdot. pose proof (rfind_bounds "/" p).
    split; [by rewrite str_take_drop|]. right.
    destruct (rfind_drop "." p) as (t & Ht & Hnodot); [lia|].
    exists t. repeat split; [done..|].
    apply (rfind_tail "/" "."). rewrite <- Ht.
    apply rfind_drop_after. lia.
  - split; [|by left]. by rewrite append_Empty_r.
  - split; [|by left]. by rewrite append_Empty_r.
Qed.

(** One turn of the loop of [_splitext]. *)
Lemma splitext_scan_step p i n :
  splitext_scan p i (S n)
  = match String.get i p with
    | Some b => if decide (b = "."%char) then splitext_scan p (S i) n else true
    | None => true
    end.
Proof.
  cbn [splitext_scan]. destruct (String.get i p) as [b|]; [|reflexivity].
  destruct b as [[] [] [] [] [] [] [] []]; reflexivity.
Qed.

Lemma splitext_scan_cons a s i n :
  splitext_scan (String a s) (S i) n = splitext_scan s i n.
Proof.
  revert i. induction n as [|n IH]; intros i; [reflexivity|].
  rewrite !splitext_scan_step.
  change (String.get (S i) (String a s)) with (String.get i s).
  destruct (String.get i s) as [b|]; [|reflexivity].
  case_decide; [apply IH | reflexivity].
Qed.

Lemma splitext_scan_empty i n :
  splitext_scan EmptyString i n = splitext_scan EmptyString 0 n.
Proof. destruct n; [reflexivity|]. rewrite !splitext_scan_step. by destruct i. Qed.

(** Scanning from an index is scanning what is left from there. *)
Lemma splitext_scan_drop p i n :
  splitext_scan p i n = splitext_scan (str_drop i p) 0 n.
Proof.
  revert p. induction i as [|i IH]; intros p; [by destruct p|].
  destruct p as [|a p]; [apply splitext_scan_empty|].
  rewrite splitext_scan_cons. apply IH.
Qed.

Lemma rfind_lstrip_dots_none s :
  rfind "." s = -1 → rfind "." (lstrip_dots s) = -1.
Proof.
  destruct s as [|a s]; [done|]. cbn [lstrip_dots]. case_decide as Ha; [|done].
  subst a. cbn [rfind]. pose proof (rfind_bounds "." s).
  destruct (0 <=? rfind "." s) eqn:Hr; [lia|]. by case_decide.
Qed.

(** In a file name, the scan up to the last dot finds a character that is
    not a dot exactly when a dot is left once the leading dots are off. *)
Lemma splitext_scan_lstrip_dots s :
  0 ≤ rfind "." s →
  splitext_scan s 0 (Z.to_nat (rfind "." s)) = (0 <=? rfind "." (lstrip_dots s)).
Proof.
  induction s as [|a s IH]; [cbn; lia|].
  intros Hdot. pose proof (rfind_bounds "." s) as Hs.
  cbn [lstrip_dots]. case_decide as Ha.
  - subst a. cbn [rfind] in *.
    destruct (0 <=? rfind "." s) eqn:Hr.
    + apply Z.leb_le in Hr.
      replace (Z.to_nat (rfind "." s + 1)) with (S (Z.to_nat (rfind "." s))) by lia.
      rewrite splitext_scan_step. cbn [String.get]. rewrite decide_True by done.
      rewrite splitext_scan_cons. by apply IH.
    + rewrite decide_True by done. cbn [Z.to_nat splitext_scan].
      rewrite rfind_lstrip_dots_none; [reflexivity|]. apply Z.leb_gt in Hr. lia.
  - assert ((0 <=? rfind "." (String a s)) = true) as -> by (by apply Z.leb_le).
    cbn [rfind] in *. destruct (0 <=? rfind "." s) eqn:Hr.
    + apply Z.leb_le in Hr.
      replace (Z.to_nat (rfind "." s + 1)) with (S (Z.to_nat (rfind "." s))) by lia.
      rewrite splitext_scan_step. cbn [String.get]. by rewrite decide_False.
    + rewrite decide_False in Hdot by done. lia.
Qed.

Lemma str_take_length n p :
  (n ≤ String.length p)%nat → String.length (str_take n p) = n.
Proof.
  revert p. induction n as [|n IH]; intros [|a p] Hn; simpl in *; try lia.
  rewrite IH; lia.
Qed.

(** Where the last dot of the path lies with respect to the file name. *)
Lemma rfind_dot_basename p :
  rfind "." p =
    if 0 <=? rfind "." (basename p)
    then rfind "/" p + 1 + rfind "." (basename p)
    else rfind "." (str_take (Z.to_nat (rfind "/" p + 1)) p).
Proof.
  unfold basename. pose proof (rfind_bounds "/" p) as Hsep.
  rewrite <- (str_take_drop (Z.to_nat (rfind "/" p + 1)) p) at 1.
  rewrite rfind_app, str_take_length by lia.
  destruct (0 <=? rfind "." _); [lia | reflexivity].
Qed.

(** The test of [_splitext], dot after the separator and not a leading dot,
    is the test that the file name has an extension. *)
Lemma splitext_test p :
  (rfind "/" p <? rfind "." p)
  && splitext_scan p (Z.to_nat (rfind "/" p + 1))
       (Z.to_nat (rfind "." p - (rfind "/" p + 1)))
  = has_extension p.
Proof.
  unfold has_extension. pose proof (rfind_bounds "/" p) as Hsep.
  pose proof (rfind_bounds "." (basename p)) as Hname.
  pose proof (rfind_dot_basename p) as Hdot.
  destruct (0 <=? rfind "." (basename p)) eqn:Hin.
  - apply Z.leb_le in Hin.
    assert ((rfind "/" p <? rfind "." p) = true) as -> by (apply Z.ltb_lt; lia).
    cbn [andb]. rewrite splitext_scan_drop. fold (basename p).
    replace (rfind "." p - (rfind "/" p + 1)) with (rfind "." (basename p)) by lia.
    by apply splitext_scan_lstrip_dots.
  - apply Z.leb_gt in Hin.
    pose proof (rfind_bounds "." (str_take (Z.to_nat (rfind "/" p + 1)) p)) as Htake.
    rewrite str_take_length in Htake by lia.
    assert ((rfind "/" p <? rfind "." p) = false) as -> by (apply Z.ltb_ge; lia).
    cbn [andb]. rewrite rfind_lstrip_dots_none; [reflexivity | lia].
Qed.

(** The extension [splitext] returns: none when the file name has none, and
    otherwise the last dot of the path with what follows it. *)
Lemma splitext_extension p :
  if has_extension p
  then ∃ t, (splitext p).2 = String "." t ∧ rfind "." t = -1 ∧ rfind "/" t = -1
  else (splitext p).2 = EmptyString.
Proof.
  pose proof (splitext_test p) as Htest. unfold splitext.
  destruct (has_extension p); rewrite Htest; cbn [snd]; [|reflexivity].
  apply andb_true_iff in Htest as [Hdot _]. apply Z.ltb_lt in Hdot.
  pose proof (rfind_bounds "/" p).
  destruct (rfind_drop "." p) as (t & Ht & Hnodot); [lia|].
  exists t. split_and!; [done..|].
  apply (rfind_tail "/" "."). rewrite <- Ht. apply rfind_drop_after. lia.
Qed.

End Paths.

(** C8: the output path is the input path with its extension replaced by
    [_output] followed by the extension [.xlsx], and it lies in the directory
    of the input. The extension taken off is that of the file name: when the
    file name, leading dots aside, holds a dot, it is the last dot of the
    path with what follows it (so [samples.xlsx] loses [.xlsx]); when it
    holds none, there is no extension and the suffix is appended to the
    whole path. *)
Theorem output_file_name_replaces_extension (input_file : string) :
  ∃ root ext,
    splitext input_file = (root, ext) ∧
    input_file = root +:+ ext ∧
    (if has_extension input_file
     then ∃ t, ext = String "." t ∧ rfind "." t = (-1)%Z ∧ rfind "/" t = (-1)%Z
     else ext = EmptyString) ∧
    output_file_name input_file = root +:+ "_output" +:+ ".xlsx" ∧
    dirname (output_file_name input_file) = dirname input_file.
Proof.
  destruct (splitext_parts input_file) as [Hparts _].
  pose proof (splitext_extension input_file) as Hext.
  unfold output_file_name.
  destruct (splitext input_file) as [root ext] eqn:Hsplit. simpl in *.
  exists root, ext. split_and!; try done.
  rewrite Hparts. rewrite !dirname_app; [reflexivity| |reflexivity].
  destruct (has_extension input_file); [|by rewrite Hext].
  destruct Hext as (t & -> & _ & Hsep). simpl. rewrite Hsep. reflexivity.
Qed.

(** The file names of the examples have the extensions one expects. *)
Example has_extension_examples :
  has_extension "samples.xlsx" = true ∧
  has_extension "/data/run.1/genes.v2.xls" = true ∧
  has_extension "/data/run.1/.genes" = false ∧
  has_extension "/data/run.1/genes" = false ∧
  has_extension "..." = false.
Proof. repeat split. Qed.

Example output_file_name_samples :
  output_file_name "samples.xlsx" = "samples_output.xlsx".
Proof. reflexivity. Qed.

Example output_file_name_in_directory :
  output_file_name "/data/run.1/genes.v2.xls" = "/data/run.1/genes.v2_output.xlsx" ∧
  dirname (output_file_name "/data/run.1/genes.v2.xls") = "/data/run.1".
Proof. split; reflexivity. Qed.

Example output_file_name_without_extension :
  output_file_name "/data/run.1/.genes" = "/data/run.1/.genes_output.xlsx".
Proof. reflexivity. Qed.

(** ** Running the script *)

Section Run.
Context {W : Type}.

Lemma bind_inr {A B} (m : M W A) (f : A → M W B) w a t w' :
  m w = (inr a, t, w') →
  (m ≫= f) w = let '(r, t', w'') := f a w' in (r, t ++ t', w'').
Proof. intros H. unfold mbind, M_bind. by rewrite H. Qed.

Lemma bind_inl {A B} (m : M W A) (f : A → M W B) w e t w' :
  m w = (inl e, t, w') → (m ≫= f) w = (inl e, t, w').
Proof. intros H. unfold mbind, M_bind. by rewrite H. Qed.

Lemma lift_bind {A B} (a : A) (f : A → M W B) w :
  (lift (inr a) ≫= f) w = f a w.
Proof. unfold mbind, M_bind, lift. by destruct (f a w) as [[r t] w']. Qed.

Lemma lift_raise_bind {A B} (e : exn) (f : A → M W B) w :
  (lift (inl e) ≫= f) w = (inl e, [], w).
Proof. reflexivity. Qed.

Lemma emit_bind {B} ev (f : unit → M W B) w :
  (emit ev ≫= f) w = let '(r, t, w') := f tt w in (r, ev :: t, w').
Proof. reflexivity. Qed.

Lemma try_except_inl {A B} (body : M W A) (handler : exn → M W B) rest w e t w' :
  body w = (inl e, t, w') →
  try_except body handler rest w
  = let '(r, t', w'') := handler e w' in (r, t ++ t', w'').
Proof. intros H. unfold try_except. by rewrite H. Qed.

Lemma try_except_inr {A B} (body : M W A) (handler : exn → M W B) rest w a t w' :
  body w = (inr a, t, w') →
  try_except body handler rest w
  = let '(r, t', w'') := rest a w' in (r, t ++ t', w'').
Proof. intros H. unfold try_except. by rewrite H. Qed.

Context (R : remote W).

Lemma fetch_convert_run gene_id w :
  fetch_convert R gene_id w = (py_int gene_id, [], sleep_uniform R w).
Proof. reflexivity. Qed.

Lemma fetch_failed_run gene_id e (w : W) :
  fetch_failed gene_id e w
  = (inr (None, None, None), [Print (ErrorProcessing gene_id e)], w).
Proof. reflexivity. Qed.

(** The three ways through [fetch_gene_data]. *)
Lemma fetch_gene_data_not_an_integer gene_id e w :
  py_int gene_id = inl e →
  fetch_gene_data R gene_id w
  = (inr (None, None, None), [Print (ErrorProcessing gene_id e)], sleep_uniform R w).
Proof.
  intros Hint. unfold fetch_gene_data.
  rewrite (try_except_inl _ _ _ _ e [] (sleep_uniform R w))
    by (by rewrite fetch_convert_run, Hint).
  reflexivity.
Qed.

Lemma fetch_gene_data_record_fails gene_id n e t w w' :
  py_int gene_id = inr n →
  fetch_record R n (sleep_uniform R w) = (inl e, t, w') →
  fetch_gene_data R gene_id w
  = (inr (None, None, None), t ++ [Print (ErrorProcessing (PInt n) e)], w').
Proof.
  intros Hint Hrec. unfold fetch_gene_data.
  rewrite (try_except_inr _ _ _ _ n [] (sleep_uniform R w))
    by (by rewrite fetch_convert_run, Hint).
  rewrite (try_except_inl _ _ _ _ e t w') by done.
  reflexivity.
Qed.

Lemma fetch_gene_data_record_found gene_id n accession gene_length protein_length t w w' :
  py_int gene_id = inr n →
  fetch_record R n (sleep_uniform R w)
    = (inr (accession, gene_length, protein_length), t, w') →
  fetch_gene_data R gene_id w
  = (inr (Some accession, Some gene_length, Some protein_length), t, w').
Proof.
  intros Hint Hrec. unfold fetch_gene_data.
  rewrite (try_except_inr _ _ _ _ n [] (sleep_uniform R w))
    by (by rewrite fetch_convert_run, Hint).
  rewrite (try_except_inr _ _ _ _ (accession, gene_length, protein_length) t w')
    by done.
  simpl. by rewrite app_nil_r.
Qed.

(** [fetch_gene_data] never raises. *)
Lemma fetch_gene_data_returns gene_id w :
  ∃ triple t w', fetch_gene_data R gene_id w = (inr triple, t, w').
Proof.
  destruct (py_int gene_id) as [e|n] eqn:Hint.
  - eauto using fetch_gene_data_not_an_integer.
  - destruct (fetch_record R n (sleep_uniform R w)) as [[[e|[[a g] l]] t] w'] eqn:Hrec.
    + eauto using fetch_gene_data_record_fails.
    + eauto using fetch_gene_data_record_found.
Qed.

Lemma fetch_rows_cons gene_id gene_ids data w accession gene_len protein_len t w' :
  fetch_gene_data R gene_id w = (inr (accession, gene_len, protein_len), t, w') →
  fetch_rows R (gene_id :: gene_ids) data w
  = let '(r, t', w'') :=
      fetch_rows R gene_ids (data ++ [Row gene_id accession gene_len protein_len]) w'
    in (r, t ++ t', w'').
Proof. intros H. simpl. by rewrite (bind_inr _ _ _ _ _ _ H). Qed.

(** The loop returns: it adds one row per identifier, in order, with the
    identifier as read. *)
Lemma fetch_rows_returns gene_ids data w :
  ∃ rows t w',
    fetch_rows R gene_ids data w = (inr (data ++ rows), t, w') ∧
    row_gene_id <$> rows = gene_ids.
Proof.
  revert data w. induction gene_ids as [|gene_id gene_ids IH]; intros data w.
  - exists [], [], w. by rewrite app_nil_r.
  - destruct (fetch_gene_data_returns gene_id w) as ([[a g] l] & t & w' & Hfetch).
    rewrite (fetch_rows_cons _ _ _ _ _ _ _ _ _ Hfetch).
    destruct (IH (data ++ [Row gene_id a g l]) w') as (rows & t' & w'' & -> & Hids).
    exists (Row gene_id a g l :: rows), (t ++ t'), w''.
    split; [by rewrite <- app_assoc | by rewrite fmap_cons, Hids].
Qed.

End Run.

(** ** What a computation shows of itself *)

Section Closure.
Context {W : Type}.

Lemma prints_only_ret {A} (a : A) : prints_only (mret a : M W A).
Proof. intros w. constructor. Qed.

Lemma prints_only_lift {A} (r : result A) : prints_only (lift r : M W A).
Proof. intros w. constructor. Qed.

Lemma prints_only_call {A} (f : W → result A * W) : prints_only (call f).
Proof. intros w. unfold call. destruct (f w). constructor. Qed.

Lemma prints_only_pass (f : W → W) : prints_only (pass f).
Proof. intros w. constructor. Qed.

Lemma prints_only_print l : prints_only (emit (Print l) : M W unit).
Proof. intros w. repeat constructor. by exists l. Qed.

Lemma prints_only_bind {A B} (m : M W A) (f : A → M W B) :
  prints_only m → (∀ a, prints_only (f a)) → prints_only (m ≫= f).
Proof.
  intros Hm Hf w. specialize (Hm w). unfold mbind, M_bind.
  destruct (m w) as [[[e|a] t] w']; simpl in *; [done|].
  specialize (Hf a w'). destruct (f a w') as [[r t'] w'']; simpl in *.
  by apply Forall_app.
Qed.

Lemma prints_only_try {A B} (body : M W A) (handler : exn → M W B) rest :
  prints_only body → (∀ e, prints_only (handler e)) → (∀ a, prints_only (rest a)) →
  prints_only (try_except body handler rest).
Proof.
  intros Hb Hh Hr w. specialize (Hb w). unfold try_except.
  destruct (body w) as [[[e|a] t] w']; simpl in *.
  - specialize (Hh e w'). destruct (handler e w') as [[r t'] w'']; simpl in *.
    by apply Forall_app.
  - specialize (Hr a w'). destruct (rest a w') as [[r t'] w'']; simpl in *.
    by apply Forall_app.
Qed.

Lemma world_blind_ret {A} (a : A) : world_blind (mret a : M W A).
Proof. by intros w1 w2. Qed.

Lemma world_blind_lift {A} (r : result A) : world_blind (lift r : M W A).
Proof. by intros w1 w2. Qed.

Lemma world_blind_emit ev : world_blind (emit ev : M W unit).
Proof. by intros w1 w2. Qed.

Lemma world_blind_pass (f : W → W) : world_blind (pass f).
Proof. by intros w1 w2. Qed.

Lemma world_blind_call {A} (f : W → result A * W) :
  (∀ w1 w2, (f w1).1 = (f w2).1) → world_blind (call f).
Proof.
  intros Hf w1 w2. specialize (Hf w1 w2). unfold observed, call.
  destruct (f w1), (f w2); simpl in *. by subst.
Qed.

Lemma world_blind_bind {A B} (m : M W A) (f : A → M W B) :
  world_blind m → (∀ a, world_blind (f a)) → world_blind (m ≫= f).
Proof.
  intros Hm Hf w1 w2. specialize (Hm w1 w2). unfold observed, mbind, M_bind in *.
  destruct (m w1) as [[r1 t1] w1'], (m w2) as [[r2 t2] w2']; simpl in *.
  injection Hm as -> ->. destruct r2 as [e|a]; [done|].
  specialize (Hf a w1' w2'). unfold observed in Hf.
  destruct (f a w1') as [[? ?] ?], (f a w2') as [[? ?] ?]; simpl in *.
  by injection Hf as -> ->.
Qed.

Lemma world_blind_try {A B} (body : M W A) (handler : exn → M W B) rest :
  world_blind body → (∀ e, world_blind (handler e)) → (∀ a, world_blind (rest a)) →
  world_blind (try_except body handler rest).
Proof.
  intros Hb Hh Hr w1 w2. specialize (Hb w1 w2). unfold observed, try_except in *.
  destruct (body w1) as [[r1 t1] w1'], (body w2) as [[r2 t2] w2']; simpl in *.
  injection Hb as -> ->. destruct r2 as [e|a].
  - specialize (Hh e w1' w2'). unfold observed in Hh.
    destruct (handler e w1') as [[? ?] ?], (handler e w2') as [[? ?] ?]; simpl in *.
    by injection Hh as -> ->.
  - specialize (Hr a w1' w2'). unfold observed in Hr.
    destruct (rest a w1') as [[? ?] ?], (rest a w2') as [[? ?] ?]; simpl in *.
    by injection Hr as -> ->.
Qed.

Context (R : remote W) (fs : files).

Lemma fetch_gene_data_prints_only gene_id : prints_only (fetch_gene_data R gene_id).
Proof.
  unfold fetch_gene_data, fetch_convert, fetch_record, fetch_failed.
  repeat first
    [ apply prints_only_try | apply prints_only_bind | apply prints_only_ret
    | apply prints_only_lift | apply prints_only_call | apply prints_only_pass
    | apply prints_only_print | intros [[? ?] ?] | intro ].
Qed.

Lemma fetch_rows_prints_only gene_ids data : prints_only (fetch_rows R gene_ids data).
Proof.
  revert data. induction gene_ids as [|gene_id gene_ids IH]; intros data.
  - apply prints_only_ret.
  - simpl. apply prints_only_bind; [apply fetch_gene_data_prints_only|].
    intros [[a g] l]. apply IH.
Qed.

Lemma fetch_gene_data_world_blind gene_id :
  deterministic R → world_blind (fetch_gene_data R gene_id).
Proof.
  intros [Hgene Hprotein].
  unfold fetch_gene_data, fetch_convert, fetch_record, fetch_failed.
  repeat first
    [ apply world_blind_try | apply world_blind_bind | apply world_blind_ret
    | apply world_blind_lift | apply world_blind_emit | apply world_blind_pass
    | apply world_blind_call; first [apply Hgene | apply Hprotein]
    | intros [[? ?] ?] | intro ].
Qed.

Lemma fetch_rows_world_blind gene_ids data :
  deterministic R → world_blind (fetch_rows R gene_ids data).
Proof.
  intros Hdet. revert data. induction gene_ids as [|gene_id gene_ids IH]; intros data.
  - apply world_blind_ret.
  - simpl. apply world_blind_bind; [by apply fetch_gene_data_world_blind|].
    intros [[a g] l]. apply IH.
Qed.

Lemma process_gene_list_world_blind input_file :
  deterministic R → world_blind (process_gene_list R fs input_file).
Proof.
  intros Hdet. unfold process_gene_list, process_body, process_handler.
  apply world_blind_try.
  - repeat first
      [ apply world_blind_bind | apply world_blind_lift | apply world_blind_emit
      | by apply fetch_rows_world_blind | intro ].
  - intros e. destruct (exn_cls e);
      first [apply world_blind_emit | apply world_blind_lift].
  - intros a. apply world_blind_ret.
Qed.

End Closure.

(** ** The record fetcher *)

(** C7: with the interval endpoints [gene_start] and [gene_end] read from the
    gene record, the gene length [fetch_gene_data] computes is
    [|gene_end - gene_start|], whichever endpoint is the larger: it is the
    length printed, and the length returned when the protein lookup
    succeeds. *)
Theorem gene_length_is_abs_difference {W} (R : remote W)
    (gene_id : pyval) (n : Z) (w w1 : W)
    (record locus product accession genomic_coords : pyval)
    (gene_end gene_start : Z) :
  py_int gene_id = inr n →
  efetch_gene R n (sleep_uniform R w) = (inr record, w1) →
  getpath record locus_path = inr locus →
  getpath locus product_path = inr product →
  getitem product (Key "Gene-commentary_accession") = inr accession →
  getpath product genomic_coords_path = inr genomic_coords →
  getpath record (seq_interval_path "Seq-interval_to") ≫= py_int = inr gene_end →
  getpath record (seq_interval_path "Seq-interval_from") ≫= py_int = inr gene_start →
  let gene_length := Z.abs (gene_end - gene_start) in
  (gene_end < gene_start → gene_length = gene_start - gene_end)%Z ∧
  match efetch_protein R accession w1 with
  | (inr seq, w2) =>
      let protein_length := Z.of_nat (String.length seq) in
      fetch_gene_data R gene_id w
      = (inr (Some accession, Some gene_length, Some protein_length),
         [Print (GeneComplete n gene_length);
          Print (AccessionComplete accession protein_length)], w2)
  | (inl e, w2) =>
      fetch_gene_data R gene_id w
      = (inr (None, None, None),
         [Print (GeneComplete n gene_length);
          Print (ErrorProcessing (PInt n) e)], w2)
  end.
Proof.
  intros Hint Hgene Hlocus Hproduct Hacc Hcoords Hend Hstart gene_length.
  split; [lia|].
  assert (fetch_record R n (sleep_uniform R w)
          = (_ ← emit (Print (GeneComplete n gene_length));
             seq ← call (efetch_protein R accession);
             let protein_length := Z.of_nat (String.length seq) in
             _ ← emit (Print (AccessionComplete accession protein_length));
             mret (accession, gene_length, protein_length)) w1) as Hrecord.
  { unfold fetch_record.
    rewrite (bind_inr _ _ _ record [] w1) by (unfold call; by rewrite Hgene).
    rewrite Hlocus, lift_bind, Hproduct, lift_bind, Hacc, lift_bind.
    rewrite Hcoords, lift_bind, Hend, lift_bind, Hstart, lift_bind.
    fold gene_length.
    by destruct ((emit (Print (GeneComplete n gene_length)) ≫= _) w1) as [[? ?] ?]. }
  rewrite emit_bind in Hrecord. unfold mbind at 1, M_bind at 1, call at 1 in Hrecord.
  destruct (efetch_protein R accession w1) as [[e|seq] w2]; simpl in Hrecord.
  - by rewrite (fetch_gene_data_record_fails R gene_id n e _ w w2 Hint Hrecord).
  - by rewrite (fetch_gene_data_record_found R gene_id n _ _ _ _ w w2 Hint Hrecord).
Qed.

Lemma gene_length_is_abs_difference_witness :
  fetch_gene_data stub (PInt 672) 0
  = (inr (Some (PStr "NP_009225.1"), Some 81069%Z, Some 1863%Z),
     [Print (GeneComplete 672 81069);
      Print (AccessionComplete (PStr "NP_009225.1") 1863)], 3).
Proof.
  edestruct (gene_length_is_abs_difference stub (PInt 672) 672 0) as [_ H];
    [reflexivity..|exact H].
Defined.

(** The gene 7157 against the stub: accession NP_000537.3, gene length
    7687538 - 7661779, 393 residues. *)
Example fetch_gene_data_7157 :
  fetch_gene_data stub (PInt 7157) 0
  = (inr (Some (PStr "NP_000537.3"), Some 25759%Z, Some 393%Z),
     [Print (GeneComplete 7157 25759);
      Print (AccessionComplete (PStr "NP_000537.3") 393)], 3).
Proof. reflexivity. Qed.

(** C3: whatever exception the [try] block of [fetch_gene_data] raises for an
    identifier, in the integer conversion, the gene lookup, the walk through
    the record or the protein lookup, [fetch_gene_data] prints the identifier
    with the exception and returns three [None]; the loop of
    [process_gene_list] adds the row of absent values and goes on with the
    identifiers that follow. *)
Theorem fetch_failure_gives_absent_row {W} (R : remote W)
    (gene_id : pyval) (e : exn) (t : list event) (w w' : W) :
  fetch_try R gene_id w = (inl e, t, w') →
  let logged := Print (ErrorProcessing (gene_id_at_handler gene_id) e) in
  fetch_gene_data R gene_id w = (inr (None, None, None), t ++ [logged], w') ∧
  ∀ gene_ids data,
    fetch_rows R (gene_id :: gene_ids) data w
    = let '(r, t', w'') :=
        fetch_rows R gene_ids (data ++ [Row gene_id None None None]) w'
      in (r, (t ++ [logged]) ++ t', w'').
Proof.
  intros Htry logged.
  assert (fetch_gene_data R gene_id w
          = (inr (None, None, None), t ++ [logged], w')) as Hfetch.
  { unfold fetch_try in Htry. subst logged. unfold gene_id_at_handler.
    destruct (py_int gene_id) as [e'|n] eqn:Hint.
    - rewrite (bind_inl _ _ _ e' [] (sleep_uniform R w)) in Htry
        by (by rewrite fetch_convert_run, Hint).
      injection Htry as -> <- <-.
      by apply fetch_gene_data_not_an_integer.
    - rewrite (bind_inr _ _ _ n [] (sleep_uniform R w)) in Htry
        by (by rewrite fetch_convert_run, Hint).
      apply (fetch_gene_data_record_fails R gene_id n e t w w' Hint).
      by destruct (fetch_record R n (sleep_uniform R w)) as [[? ?] ?]. }
  split; [exact Hfetch|].
  intros gene_ids data. by apply fetch_rows_cons.
Qed.

Lemma fetch_failure_gives_absent_row_witness :
  fetch_gene_data stub (PInt 1017) 0
  = (inr (None, None, None),
     [Print (ErrorProcessing (PInt 1017) (Exn KeyError "Entrezgene_locus"))], 2) ∧
  fetch_rows stub [PInt 1017; PInt 7157] [] 0
  = (inr [Row (PInt 1017) None None None;
          Row (PInt 7157) (Some (PStr "NP_000537.3")) (Some 25759%Z) (Some 393%Z)],
     [Print (ErrorProcessing (PInt 1017) (Exn KeyError "Entrezgene_locus"));
      Print (GeneComplete 7157 25759);
      Print (AccessionComplete (PStr "NP_000537.3") 393)], 5).
Proof.
  destruct (fetch_failure_gives_absent_row stub (PInt 1017)
              (Exn KeyError "Entrezgene_locus") [] 0 2 eq_refl) as [Hfetch Hrows].
  split; [exact Hfetch | exact (Hrows [PInt 7157] [])].
Defined.

(** The four places where the [try] block can fail, against the stub. *)
Example fetch_fails_in_int :
  fetch_gene_data stub (PStr "x") 0
  = (inr (None, None, None),
     [Print (ErrorProcessing (PStr "x")
               (Exn ValueError "invalid literal for int() with base 10: 'x'"))], 1).
Proof. reflexivity. Qed.

Example fetch_fails_in_gene_lookup :
  fetch_gene_data stub (PStr "5") 0
  = (inr (None, None, None),
     [Print (ErrorProcessing (PInt 5)
               (Exn (OtherError "HTTPError") "HTTP Error 400: Bad Request"))], 2).
Proof. reflexivity. Qed.

Example fetch_fails_in_record :
  fetch_gene_data stub (PInt 1017) 0
  = (inr (None, None, None),
     [Print (ErrorProcessing (PInt 1017) (Exn KeyError "Entrezgene_locus"))], 2).
Proof. reflexivity. Qed.

Example fetch_fails_in_protein_lookup :
  fetch_gene_data stub (PInt 348) 0
  = (inr (None, None, None),
     [Print (GeneComplete 348 3597);
      Print (ErrorProcessing (PInt 348)
               (Exn ValueError "No records found in handle"))], 3).
Proof. reflexivity. Qed.

(** The [try] block and the function succeed together. *)
Lemma fetch_try_returns {W} (R : remote W) gene_id accession gene_length protein_length t
    (w w' : W) :
  fetch_try R gene_id w = (inr (accession, gene_length, protein_length), t, w') →
  fetch_gene_data R gene_id w
  = (inr (Some accession, Some gene_length, Some protein_length), t, w').
Proof.
  intros Htry. unfold fetch_try in Htry.
  destruct (py_int gene_id) as [e'|n] eqn:Hint.
  - rewrite (bind_inl _ _ _ e' [] (sleep_uniform R w)) in Htry
      by (by rewrite fetch_convert_run, Hint).
    discriminate.
  - rewrite (bind_inr _ _ _ n [] (sleep_uniform R w)) in Htry
      by (by rewrite fetch_convert_run, Hint).
    apply (fetch_gene_data_record_found R gene_id n _ _ _ t w w' Hint).
    by destruct (fetch_record R n (sleep_uniform R w)) as [[? ?] ?].
Qed.

(** ** The batch processor *)

(** The [try] block of [process_gene_list] up to the loop. *)
Lemma process_body_reads {W} (R : remote W) fs input_file email (w : W) :
  read_email_from_config (config_files fs) "config.ini" = inr email →
  process_body R fs input_file w
  = let '(r, t, w') :=
      (gene_ids ← lift (df ← read_excel (excel_files fs) input_file;
                        column df "Gene ID");
       data ← fetch_rows R gene_ids [];
       let output_file := output_file_name input_file in
       _ ← emit (ToExcel output_file data);
       emit (Print (OutputSaved output_file))) w
    in (r, SetEntrezEmail email :: t, w').
Proof.
  intros Hemail. unfold process_body. rewrite Hemail, lift_bind, emit_bind.
  destruct (read_excel (excel_files fs) input_file) as [e|df]; [reflexivity|].
  rewrite lift_bind. cbn [mbind result_bind].
  destruct (column df "Gene ID") as [e|gene_ids]; [reflexivity|].
  by rewrite !lift_bind.
Qed.

(** C1: for an input table with the identifiers [gene_ids] in its [Gene ID]
    column, [process_gene_list] writes one table, with as many rows as there
    are identifiers, and the [Gene ID] fields of the rows are the identifiers
    as read, in their order, whether or not the fetch for them failed. *)
Theorem process_gene_list_one_row_per_identifier {W} (R : remote W) (fs : files)
    (input_file email : string) (df : gmap string (list pyval))
    (gene_ids : list pyval) (w : W) :
  read_email_from_config (config_files fs) "config.ini" = inr email →
  excel_files fs !! input_file = Some (Sheet df) →
  df !! "Gene ID" = Some gene_ids →
  ∃ data t w',
    process_gene_list R fs input_file w
    = (inr tt,
       SetEntrezEmail email :: t ++
         [ToExcel (output_file_name input_file) data;
          Print (OutputSaved (output_file_name input_file))], w') ∧
    Forall is_print t ∧
    length data = length gene_ids ∧
    row_gene_id <$> data = gene_ids.
Proof.
  intros Hemail Hfile Hcol.
  destruct (fetch_rows_returns R gene_ids [] w) as (data & t & w' & Hrows & Hids).
  exists data, t, w'. split_and!.
  - assert (process_body R fs input_file w
            = (inr tt,
               SetEntrezEmail email :: t ++
                 [ToExcel (output_file_name input_file) data;
                  Print (OutputSaved (output_file_name input_file))], w')) as Hbody.
    { assert ((df ← read_excel (excel_files fs) input_file; column df "Gene ID")
              = inr gene_ids) as Hread.
      { unfold read_excel, column. rewrite Hfile. cbn. by rewrite Hcol. }
      rewrite (process_body_reads R fs input_file email w Hemail).
      rewrite Hread, lift_bind, (bind_inr _ _ _ _ _ _ Hrows). reflexivity. }
    unfold process_gene_list. rewrite (try_except_inr _ _ _ _ _ _ _ Hbody).
    cbn. by rewrite app_nil_r.
  - pose proof (fetch_rows_prints_only R gene_ids [] w) as Hprints.
    by rewrite Hrows in Hprints.
  - by rewrite <- Hids, length_fmap.
  - exact Hids.
Qed.

Lemma process_gene_list_one_row_per_identifier_witness :
  ∃ data t w',
    process_gene_list stub samples "samples.xlsx" 0
    = (inr tt,
       SetEntrezEmail "lab@example.org" :: t ++
         [ToExcel (output_file_name "samples.xlsx") data;
          Print (OutputSaved (output_file_name "samples.xlsx"))], w') ∧
    Forall is_print t ∧
    length data = 5 ∧
    row_gene_id <$> data = [PInt 7157; PStr "x"; PInt 1017; PInt 5; PStr " 7_157 "].
Proof.
  exact (process_gene_list_one_row_per_identifier stub samples "samples.xlsx"
           "lab@example.org"
           {[ "Gene ID" := [PInt 7157; PStr "x"; PInt 1017; PInt 5; PStr " 7_157 "] ]}
           [PInt 7157; PStr "x"; PInt 1017; PInt 5; PStr " 7_157 "] 0
           eq_refl eq_refl eq_refl).
Defined.

(** A whole run against the stub: two rows filled, three rows of absent
    values, all five in the order of the sheet. *)
Example process_gene_list_samples :
  process_gene_list stub samples "samples.xlsx" 0
  = (inr tt,
     [SetEntrezEmail "lab@example.org";
      Print (GeneComplete 7157 25759);
      Print (AccessionComplete (PStr "NP_000537.3") 393);
      Print (ErrorProcessing (PStr "x")
               (Exn ValueError "invalid literal for int() with base 10: 'x'"));
      Print (ErrorProcessing (PInt 1017) (Exn KeyError "Entrezgene_locus"));
      Print (ErrorProcessing (PInt 5)
               (Exn (OtherError "HTTPError") "HTTP Error 400: Bad Request"));
      Print (GeneComplete 7157 25759);
      Print (AccessionComplete (PStr "NP_000537.3") 393);
      ToExcel "samples_output.xlsx"
        [Row (PInt 7157) (Some (PStr "NP_000537.3")) (Some 25759%Z) (Some 393%Z);
         Row (PStr "x") None None None;
         Row (PInt 1017) None None None;
         Row (PInt 5) None None None;
         Row (PStr " 7_157 ") (Some (PStr "NP_000537.3")) (Some 25759%Z) (Some 393%Z)];
      Print (OutputSaved "samples_output.xlsx")], 11).
Proof. vm_compute. reflexivity. Qed.

(** Without a [config.ini] the batch does not run: the [KeyError] of the
    reader is printed and nothing is fetched or written. *)
Example process_gene_list_without_config :
  process_gene_list stub {| config_files := ∅; excel_files := excel_files samples |}
    "samples.xlsx" 0
  = (inr tt, [Print (ErrorText (Exn KeyError email_missing_message))], 0).
Proof. reflexivity. Qed.

(** C4 as stated fails: a sheet without the [Gene ID] column, and an input
    file that does not exist, do not make [process_gene_list] raise; the
    handler of line 105 prints the exception and the function returns. *)
Lemma input_errors_do_not_propagate :
  (excel_files samples !! "notes.xlsx" = Some (Sheet {[ "Gene" := [PInt 7157] ]}) ∧
   ¬ raises (process_gene_list stub samples "notes.xlsx") 0) ∧
  (excel_files samples !! "genes.xlsx" = None ∧
   ¬ raises (process_gene_list stub samples "genes.xlsx") 0).
Proof.
  split; (split; [reflexivity|]); intros (e & t & w' & Hraise);
    vm_compute in Hraise; discriminate.
Qed.

(** C4, amended: once the configuration is read, an input file that does not
    exist and a table without a column named [Gene ID] are caught by the
    handler of lines 105-106, which prints the exception; nothing is written
    and the function returns. A failure of [read_excel] of any other class
    leaves [process_gene_list] unhandled. *)
Theorem input_errors_caught_or_propagated {W} (R : remote W) (fs : files)
    (input_file email : string) (w : W) :
  read_email_from_config (config_files fs) "config.ini" = inr email →
  (excel_files fs !! input_file = None →
   process_gene_list R fs input_file w
   = (inr tt,
      [SetEntrezEmail email;
       Print (ErrorText (Exn FileNotFoundError
         ("[Errno 2] No such file or directory: '" +:+ input_file +:+ "'")))], w)) ∧
  (∀ df, excel_files fs !! input_file = Some (Sheet df) →
         df !! "Gene ID" = None →
   process_gene_list R fs input_file w
   = (inr tt, [SetEntrezEmail email; Print (ErrorText (Exn KeyError "Gene ID"))], w)) ∧
  (∀ e, excel_files fs !! input_file = Some (Unreadable e) →
        exn_cls e ≠ FileNotFoundError → exn_cls e ≠ KeyError →
   process_gene_list R fs input_file w = (inl e, [SetEntrezEmail email], w) ∧
   raises (process_gene_list R fs input_file) w).
Proof.
  intros Hemail.
  assert (∀ e, (df ← read_excel (excel_files fs) input_file; column df "Gene ID")
               = inl e →
               process_gene_list R fs input_file w
               = let '(r, t, w') := process_handler e w in
                 (r, [SetEntrezEmail email] ++ t, w')) as Hfails.
  { intros e He. unfold process_gene_list.
    apply try_except_inl.
    rewrite (process_body_reads R fs input_file email w Hemail).
    by rewrite He. }
  split_and!.
  - intros Hfile. rewrite (Hfails (Exn FileNotFoundError
      ("[Errno 2] No such file or directory: '" +:+ input_file +:+ "'")));
      [reflexivity|].
    unfold read_excel. by rewrite Hfile.
  - intros df Hfile Hcol. rewrite (Hfails (Exn KeyError "Gene ID")); [reflexivity|].
    unfold read_excel, column. rewrite Hfile. cbn. by rewrite Hcol.
  - intros e Hfile Hfnf Hkey.
    assert (process_gene_list R fs input_file w = (inl e, [SetEntrezEmail email], w))
      as Hrun.
    { rewrite (Hfails e) by (unfold read_excel; by rewrite Hfile).
      unfold process_handler. by destruct e as [[] arg]. }
    split; [exact Hrun|]. by exists e, [SetEntrezEmail email], w.
Qed.

Lemma input_errors_caught_or_propagated_witness :
  process_gene_list stub samples "genes.xlsx" 0
  = (inr tt,
     [SetEntrezEmail "lab@example.org";
      Print (ErrorText (Exn FileNotFoundError
        "[Errno 2] No such file or directory: 'genes.xlsx'"))], 0) ∧
  process_gene_list stub samples "notes.xlsx" 0
  = (inr tt,
     [SetEntrezEmail "lab@example.org"; Print (ErrorText (Exn KeyError "Gene ID"))], 0) ∧
  raises (process_gene_list stub samples "locked.xlsx") 0.
Proof.
  destruct (input_errors_caught_or_propagated stub samples "genes.xlsx"
              "lab@example.org" 0 eq_refl) as (Hmissing & _ & _).
  destruct (input_errors_caught_or_propagated stub samples "notes.xlsx"
              "lab@example.org" 0 eq_refl) as (_ & Hcolumn & _).
  destruct (input_errors_caught_or_propagated stub samples "locked.xlsx"
              "lab@example.org" 0 eq_refl) as (_ & _ & Hlocked).
  split_and!.
  - apply Hmissing. reflexivity.
  - apply (Hcolumn {[ "Gene" := [PInt 7157] ]}); reflexivity.
  - apply (Hlocked (Exn OSError "[Errno 13] Permission denied: 'locked.xlsx'"));
      [reflexivity | discriminate | discriminate].
Defined.

(** ** Repeated runs *)

(** C9: against a deterministic service, two runs of [process_gene_list] on
    the same input, from whatever states of the world, show the same result
    and the same events; in particular they write the same tables. *)
Theorem process_gene_list_deterministic {W} (R : remote W) (fs : files)
    (input_file : string) (w1 w2 : W) :
  deterministic R →
  observed (process_gene_list R fs input_file) w1
  = observed (process_gene_list R fs input_file) w2 ∧
  ∀ output_file data,
    ToExcel output_file data ∈ (observed (process_gene_list R fs input_file) w1).2 ↔
    ToExcel output_file data ∈ (observed (process_gene_list R fs input_file) w2).2.
Proof.
  intros Hdet.
  pose proof (process_gene_list_world_blind R fs input_file Hdet w1 w2) as Hsame.
  split; [exact Hsame|]. intros output_file data. by rewrite Hsame.
Qed.

Lemma process_gene_list_deterministic_witness :
  observed (process_gene_list stub samples "samples.xlsx") 0
  = observed (process_gene_list stub samples "samples.xlsx") 11 ∧
  ∀ output_file data,
    ToExcel output_file data
      ∈ (observed (process_gene_list stub samples "samples.xlsx") 0).2 ↔
    ToExcel output_file data
      ∈ (observed (process_gene_list stub samples "samples.xlsx") 11).2.
Proof.
  apply (process_gene_list_deterministic stub samples "samples.xlsx" 0 11).
  split; intros; reflexivity.
Defined.

(** Without determinism the runs may differ: the service that answers every
    other call gives different tables from different starting states. *)
Example flaky_runs_differ :
  observed (process_gene_list flaky samples "samples.xlsx") 0
  ≠ observed (process_gene_list flaky samples "samples.xlsx") 1.
Proof. intros H. vm_compute in H. discriminate. Qed.

(** * Further properties *)

(** ** The configuration reader, in full *)

(** How [read_email_from_config] can fail. *)
Lemma read_email_failure_cases (fs : gmap string config_file) (path : string) (e : exn) :
  read_email_from_config fs path = inl e →
  e = Exn KeyError email_missing_message ∨
  (∃ msg, fs !! path = Some (Malformed msg) ∧ e = Exn ConfigParserError msg) ∨
  (∃ msg, fs !! path = Some (Undecodable msg) ∧ e = Exn ValueError msg).
Proof.
  unfold read_email_from_config, config_read, config_getitem.
  destruct (fs !! path) as [[|msg|sections|msg]|]; cbn.
  - intros [= <-]. by left.
  - intros [= <-]. right; left. by exists msg.
  - destruct (sections !! "NCBI") as [ncbi|]; cbn.
    + destruct (ncbi !! "email"); cbn; [discriminate|]. intros [= <-]. by left.
    + intros [= <-]. by left.
  - intros [= <-]. right; right. by exists msg.
  - intros [= <-]. by left.
Qed.

(** X1: [read_email_from_config] never raises [FileNotFoundError]: whatever
    the path holds, a failure is the [KeyError] of line 33, or what [read]
    raised on a file it opened, passed on unchanged: the parser's own error
    on a file it rejects, the decoding error on a file that is not text. The
    handler of lines 27-31 is never entered. *)
Theorem read_email_failures (fs : gmap string config_file) (path : string) (e : exn) :
  read_email_from_config fs path = inl e →
  exn_cls e ≠ FileNotFoundError ∧
  (e = Exn KeyError email_missing_message ∨
   (∃ msg, fs !! path = Some (Malformed msg) ∧ e = Exn ConfigParserError msg) ∨
   (∃ msg, fs !! path = Some (Undecodable msg) ∧ e = Exn ValueError msg)).
Proof.
  intros Hfail. pose proof (read_email_failure_cases fs path e Hfail) as Hcases.
  split; [|exact Hcases].
  destruct Hcases as [-> | [(msg & _ & ->) | (msg & _ & ->)]]; discriminate.
Qed.

Lemma read_email_failures_witness :
  exn_cls (Exn ValueError
             "'utf-8' codec can't decode byte 0xff in position 15: invalid start byte")
    ≠ FileNotFoundError ∧
  (Exn ValueError "'utf-8' codec can't decode byte 0xff in position 15: invalid start byte"
     = Exn KeyError email_missing_message ∨
   (∃ msg, config_undecodable !! "config.ini" = Some (Malformed msg) ∧
           Exn ValueError
             "'utf-8' codec can't decode byte 0xff in position 15: invalid start byte"
           = Exn ConfigParserError msg) ∨
   (∃ msg, config_undecodable !! "config.ini" = Some (Undecodable msg) ∧
           Exn ValueError
             "'utf-8' codec can't decode byte 0xff in position 15: invalid start byte"
           = Exn ValueError msg)).
Proof.
  apply (read_email_failures config_undecodable "config.ini"). reflexivity.
Defined.

(** X2: [read_email_from_config] returns an address exactly when the file
    was parsed and holds that address under [email] in section [NCBI];
    nothing else makes it return. *)
Theorem read_email_returns_iff (fs : gmap string config_file) (path email : string) :
  read_email_from_config fs path = inr email ↔
  ∃ sections ncbi,
    fs !! path = Some (Parsed sections) ∧
    sections !! "NCBI" = Some ncbi ∧
    ncbi !! "email" = Some email.
Proof.
  unfold read_email_from_config, config_read, config_getitem. split.
  - destruct (fs !! path) as [[|msg|sections|msg]|]; cbn; try discriminate.
    destruct (sections !! "NCBI") as [ncbi|] eqn:Hsec; cbn; [|discriminate].
    destruct (ncbi !! "email") as [value|] eqn:Hkey; cbn; [|discriminate].
    intros [= ->]. by exists sections, ncbi.
  - intros (sections & ncbi & -> & Hsec & Hkey). cbn. by rewrite Hsec, Hkey.
Qed.

(** ** The batch processor, case by case *)

Lemma process_handler_run {W} (e : exn) (w : W) :
  process_handler e w
  = match exn_cls e with
    | FileNotFoundError | KeyError => (inr tt, [Print (ErrorText e)], w)
    | _ => (inl e, [], w)
    end.
Proof. unfold process_handler. by destruct (exn_cls e). Qed.

Lemma process_gene_list_config_fails {W} (R : remote W) fs input_file e (w : W) :
  read_email_from_config (config_files fs) "config.ini" = inl e →
  process_gene_list R fs input_file w = process_handler e w.
Proof.
  intros Hemail. unfold process_gene_list.
  rewrite (try_except_inl _ _ _ _ e [] w)
    by (unfold process_body; by rewrite Hemail).
  by destruct (process_handler e w) as [[? ?] ?].
Qed.

Lemma process_gene_list_input_fails {W} (R : remote W) fs input_file email e (w : W) :
  read_email_from_config (config_files fs) "config.ini" = inr email →
  (df ← read_excel (excel_files fs) input_file; column df "Gene ID") = inl e →
  process_gene_list R fs input_file w
  = let '(r, t, w') := process_handler e w in (r, SetEntrezEmail email :: t, w').
Proof.
  intros Hemail Hread. unfold process_gene_list.
  rewrite (try_except_inl _ _ _ _ e [SetEntrezEmail email] w); [done|].
  rewrite (process_body_reads R fs input_file email w Hemail).
  by rewrite Hread.
Qed.

Lemma process_gene_list_runs {W} (R : remote W) fs input_file email gene_ids data t
    (w w' : W) :
  read_email_from_config (config_files fs) "config.ini" = inr email →
  (df ← read_excel (excel_files fs) input_file; column df "Gene ID") = inr gene_ids →
  fetch_rows R gene_ids [] w = (inr data, t, w') →
  process_gene_list R fs input_file w
  = (inr tt,
     SetEntrezEmail email :: t ++
       [ToExcel (output_file_name input_file) data;
        Print (OutputSaved (output_file_name input_file))], w').
Proof.
  intros Hemail Hread Hrows.
  assert (process_body R fs input_file w
          = (inr tt,
             SetEntrezEmail email :: t ++
               [ToExcel (output_file_name input_file) data;
                Print (OutputSaved (output_file_name input_file))], w')) as Hbody.
  { rewrite (process_body_reads R fs input_file email w Hemail).
    rewrite Hread, lift_bind, (bind_inr _ _ _ _ _ _ Hrows). reflexivity. }
  unfold process_gene_list. rewrite (try_except_inr _ _ _ _ _ _ _ Hbody).
  cbn. by rewrite app_nil_r.
Qed.

(** What reading the sheet and taking the column can give. *)
Lemma read_column_cases (fs : gmap string excel_file) (input_file : string) :
  match (df ← read_excel fs input_file; column df "Gene ID") with
  | inr gene_ids =>
      ∃ df, fs !! input_file = Some (Sheet df) ∧ df !! "Gene ID" = Some gene_ids
  | inl e =>
      exn_cls e = FileNotFoundError ∨ exn_cls e = KeyError ∨
      fs !! input_file = Some (Unreadable e)
  end.
Proof.
  unfold read_excel, column.
  destruct (fs !! input_file) as [[e|df]|]; cbn; [by right; right| |by left].
  destruct (df !! "Gene ID") as [gene_ids|] eqn:Hcol; cbn; [by exists df | by right; left].
Qed.

(** X3: when the configuration cannot be read the batch does not start:
    [Entrez.email] is not set, nothing is looked up and nothing is written.
    The [KeyError] of the reader is printed, with the text of line 33, and
    the function returns; any other failure of the reader, the parser's
    error or the decoding error, is not caught and leaves the function. *)
Theorem config_failure_stops_batch {W} (R : remote W) (fs : files)
    (input_file : string) (e : exn) (w : W) :
  read_email_from_config (config_files fs) "config.ini" = inl e →
  (e = Exn KeyError email_missing_message ∧
   process_gene_list R fs input_file w = (inr tt, [Print (ErrorText e)], w)) ∨
  (exn_cls e ≠ KeyError ∧ exn_cls e ≠ FileNotFoundError ∧
   process_gene_list R fs input_file w = (inl e, [], w)).
Proof.
  intros Hemail.
  rewrite (process_gene_list_config_fails R fs input_file e w Hemail).
  rewrite process_handler_run.
  destruct (read_email_failure_cases _ _ _ Hemail)
    as [-> | [(msg & _ & ->) | (msg & _ & ->)]];
    [by left | right; by split_and! ..].
Qed.

Lemma config_failure_stops_batch_witness :
  (Exn ConfigParserError "File contains no section headers."
     = Exn KeyError email_missing_message ∧
   process_gene_list stub
     {| config_files := config_malformed; excel_files := excel_files samples |}
     "samples.xlsx" 0
   = (inr tt,
      [Print (ErrorText (Exn ConfigParserError "File contains no section headers."))],
      0)) ∨
  (exn_cls (Exn ConfigParserError "File contains no section headers.") ≠ KeyError ∧
   exn_cls (Exn ConfigParserError "File contains no section headers.")
     ≠ FileNotFoundError ∧
   process_gene_list stub
     {| config_files := config_malformed; excel_files := excel_files samples |}
     "samples.xlsx" 0
   = (inl (Exn ConfigParserError "File contains no section headers."), [], 0)).
Proof.
  apply (config_failure_stops_batch stub
           {| config_files := config_malformed; excel_files := excel_files samples |}
           "samples.xlsx"). reflexivity.
Defined.

(** A file that is not text stops the batch in the same way. *)
Example process_gene_list_undecodable_config :
  process_gene_list stub
    {| config_files := config_undecodable; excel_files := excel_files samples |}
    "samples.xlsx" 0
  = (inl (Exn ValueError
            "'utf-8' codec can't decode byte 0xff in position 15: invalid start byte"),
     [], 0).
Proof. reflexivity. Qed.

(** X4: [process_gene_list] never raises [FileNotFoundError] or [KeyError]:
    an exception that leaves it is of another class, it is the exception
    its [try] block raised, and the handler has printed nothing for it. *)
Theorem process_gene_list_raises_only {W} (R : remote W) (fs : files)
    (input_file : string) (e : exn) (t : list event) (w w' : W) :
  process_gene_list R fs input_file w = (inl e, t, w') →
  exn_cls e ≠ FileNotFoundError ∧ exn_cls e ≠ KeyError ∧
  process_body R fs input_file w = (inl e, t, w').
Proof.
  unfold process_gene_list, try_except.
  generalize (process_body R fs input_file). intros body.
  destruct (body w) as [[[e0|[]] t0] w0]; [|discriminate].
  rewrite process_handler_run.
  destruct (exn_cls e0) eqn:Hcls; cbn; try discriminate;
    rewrite app_nil_r; intros [= <- <- <-]; rewrite Hcls;
    by split_and!.
Qed.

Lemma process_gene_list_raises_only_witness :
  exn_cls (Exn OSError "[Errno 13] Permission denied: 'locked.xlsx'")
    ≠ FileNotFoundError ∧
  exn_cls (Exn OSError "[Errno 13] Permission denied: 'locked.xlsx'") ≠ KeyError ∧
  process_body stub samples "locked.xlsx" 0
  = (inl (Exn OSError "[Errno 13] Permission denied: 'locked.xlsx'"),
     [SetEntrezEmail "lab@example.org"], 0).
Proof.
  apply (process_gene_list_raises_only stub samples "locked.xlsx"). reflexivity.
Defined.

(** Every table written comes from a complete run. *)
Lemma process_gene_list_written {W} (R : remote W) fs input_file output_file data (w : W) :
  ToExcel output_file data ∈ (observed (process_gene_list R fs input_file) w).2 →
  ∃ email gene_ids t w',
    read_email_from_config (config_files fs) "config.ini" = inr email ∧
    (df ← read_excel (excel_files fs) input_file; column df "Gene ID") = inr gene_ids ∧
    fetch_rows R gene_ids [] w = (inr data, t, w') ∧
    output_file = output_file_name input_file ∧
    row_gene_id <$> data = gene_ids ∧
    Forall is_print t.
Proof.
  unfold observed.
  destruct (read_email_from_config (config_files fs) "config.ini") as [e0|email] eqn:Hemail.
  { rewrite (process_gene_list_config_fails R fs input_file e0 w Hemail).
    rewrite process_handler_run. destruct (exn_cls e0); cbn; intros Hin;
      repeat (apply elem_of_cons in Hin as [Hin|Hin]; [discriminate|]);
      by apply elem_of_nil in Hin. }
  destruct (df ← read_excel (excel_files fs) input_file; column df "Gene ID")
    as [e0|gene_ids] eqn:Hread.
  { rewrite (process_gene_list_input_fails R fs input_file email e0 w Hemail Hread).
    rewrite process_handler_run. destruct (exn_cls e0); cbn; intros Hin;
      repeat (apply elem_of_cons in Hin as [Hin|Hin]; [discriminate|]);
      by apply elem_of_nil in Hin. }
  destruct (fetch_rows_returns R gene_ids [] w) as (rows & t & w' & Hrows & Hids).
  pose proof (fetch_rows_prints_only R gene_ids [] w) as Hprints.
  rewrite Hrows in Hprints. cbn in Hprints, Hrows.
  rewrite (process_gene_list_runs R fs input_file email gene_ids _ _ w w'
             Hemail Hread Hrows). cbn. intros Hin.
  apply elem_of_cons in Hin as [Hin|Hin]; [discriminate|].
  apply elem_of_app in Hin as [Hin|Hin].
  - rewrite Forall_forall in Hprints. destruct (Hprints _ Hin) as [l Hl]. discriminate.
  - apply elem_of_cons in Hin as [[= -> ->]|Hin].
    + by exists email, gene_ids, t, w'.
    + apply elem_of_cons in Hin as [Hin|Hin]; [discriminate|].
      by apply elem_of_nil in Hin.
Qed.

(** X5: a table is written only by a complete run: if [process_gene_list]
    writes a table at all, the configuration was read, the input is a sheet
    with a [Gene ID] column, the table went to the output path of the input,
    it has the identifiers of that column as its [Gene ID] fields, the
    function returned normally, and this is the only table of the run. *)
Theorem table_written_only_by_complete_run {W} (R : remote W) (fs : files)
    (input_file output_file : string) (data : list row) (w : W) :
  ToExcel output_file data ∈ (observed (process_gene_list R fs input_file) w).2 →
  output_file = output_file_name input_file ∧
  ∃ email df gene_ids t,
    read_email_from_config (config_files fs) "config.ini" = inr email ∧
    excel_files fs !! input_file = Some (Sheet df) ∧
    df !! "Gene ID" = Some gene_ids ∧
    row_gene_id <$> data = gene_ids ∧
    Forall is_print t ∧
    observed (process_gene_list R fs input_file) w
    = (inr tt,
       SetEntrezEmail email :: t ++
         [ToExcel output_file data; Print (OutputSaved output_file)]).
Proof.
  intros Hin.
  destruct (process_gene_list_written R fs input_file output_file data w Hin)
    as (email & gene_ids & t & w' & Hemail & Hread & Hrows & -> & Hids & Hprints).
  split; [reflexivity|].
  pose proof (read_column_cases (excel_files fs) input_file) as Hcases.
  rewrite Hread in Hcases. destruct Hcases as (df & Hfile & Hcol).
  exists email, df, gene_ids, t. split_and!; try done.
  unfold observed.
  by rewrite (process_gene_list_runs R fs input_file email gene_ids _ _ w w'
                Hemail Hread Hrows).
Qed.

Lemma samples_table_written :
  ToExcel "samples_output.xlsx"
    [Row (PInt 7157) (Some (PStr "NP_000537.3")) (Some 25759%Z) (Some 393%Z);
     Row (PStr "x") None None None;
     Row (PInt 1017) None None None;
     Row (PInt 5) None None None;
     Row (PStr " 7_157 ") (Some (PStr "NP_000537.3")) (Some 25759%Z) (Some 393%Z)]
  ∈ (observed (process_gene_list stub samples "samples.xlsx") 0).2.
Proof.
  replace (observed (process_gene_list stub samples "samples.xlsx") 0).2 with
    [SetEntrezEmail "lab@example.org";
     Print (GeneComplete 7157 25759);
     Print (AccessionComplete (PStr "NP_000537.3") 393);
     Print (ErrorProcessing (PStr "x")
              (Exn ValueError "invalid literal for int() with base 10: 'x'"));
     Print (ErrorProcessing (PInt 1017) (Exn KeyError "Entrezgene_locus"));
     Print (ErrorProcessing (PInt 5)
              (Exn (OtherError "HTTPError") "HTTP Error 400: Bad Request"));
     Print (GeneComplete 7157 25759);
     Print (AccessionComplete (PStr "NP_000537.3") 393);
     ToExcel "samples_output.xlsx"
       [Row (PInt 7157) (Some (PStr "NP_000537.3")) (Some 25759%Z) (Some 393%Z);
        Row (PStr "x") None None None;
        Row (PInt 1017) None None None;
        Row (PInt 5) None None None;
        Row (PStr " 7_157 ") (Some (PStr "NP_000537.3")) (Some 25759%Z) (Some 393%Z)];
     Print (OutputSaved "samples_output.xlsx")]
    by (vm_compute; reflexivity).
  do 8 apply list_elem_of_further. apply list_elem_of_here.
Defined.

Lemma table_written_only_by_complete_run_witness :
  "samples_output.xlsx" = output_file_name "samples.xlsx" ∧
  ∃ email df gene_ids t,
    read_email_from_config (config_files samples) "config.ini" = inr email ∧
    excel_files samples !! "samples.xlsx" = Some (Sheet df) ∧
    df !! "Gene ID" = Some gene_ids ∧
    row_gene_id <$>
      [Row (PInt 7157) (Some (PStr "NP_000537.3")) (Some 25759%Z) (Some 393%Z);
       Row (PStr "x") None None None;
       Row (PInt 1017) None None None;
       Row (PInt 5) None None None;
       Row (PStr " 7_157 ") (Some (PStr "NP_000537.3")) (Some 25759%Z) (Some 393%Z)]
    = gene_ids ∧
    Forall is_print t ∧
    observed (process_gene_list stub samples "samples.xlsx") 0
    = (inr tt,
       SetEntrezEmail email :: t ++
         [ToExcel "samples_output.xlsx"
            [Row (PInt 7157) (Some (PStr "NP_000537.3")) (Some 25759%Z) (Some 393%Z);
             Row (PStr "x") None None None;
             Row (PInt 1017) None None None;
             Row (PInt 5) None None None;
             Row (PStr " 7_157 ") (Some (PStr "NP_000537.3")) (Some 25759%Z)
               (Some 393%Z)];
          Print (OutputSaved "samples_output.xlsx")]).
Proof.
  exact (table_written_only_by_complete_run stub samples "samples.xlsx"
           "samples_output.xlsx" _ 0 samples_table_written).
Defined.

(** X10: a sheet whose [Gene ID] column is empty gives an empty table: the
    table is written with no row, nothing is looked up and nothing but the
    closing line is printed. *)
Theorem empty_column_writes_empty_table {W} (R : remote W) (fs : files)
    (input_file email : string) (df : gmap string (list pyval)) (w : W) :
  read_email_from_config (config_files fs) "config.ini" = inr email →
  excel_files fs !! input_file = Some (Sheet df) →
  df !! "Gene ID" = Some [] →
  process_gene_list R fs input_file w
  = (inr tt,
     [SetEntrezEmail email;
      ToExcel (output_file_name input_file) [];
      Print (OutputSaved (output_file_name input_file))], w).
Proof.
  intros Hemail Hfile Hcol.
  apply (process_gene_list_runs R fs input_file email [] [] [] w w Hemail);
    [|reflexivity].
  unfold read_excel, column. rewrite Hfile. cbn. by rewrite Hcol.
Qed.

Lemma empty_column_writes_empty_table_witness :
  process_gene_list stub empty_sheet "empty.xlsx" 0
  = (inr tt,
     [SetEntrezEmail "lab@example.org";
      ToExcel (output_file_name "empty.xlsx") [];
      Print (OutputSaved (output_file_name "empty.xlsx"))], 0).
Proof.
  exact (empty_column_writes_empty_table stub empty_sheet "empty.xlsx"
           "lab@example.org" {[ "Gene ID" := [] ]} 0 eq_refl eq_refl eq_refl).
Defined.

(** ** The rows of the table *)

Lemma returns_only_ret {W A} (P : A → Prop) (a : A) :
  P a → returns_only P (mret a : M W A).
Proof. intros HP w a' t w' [= <- _ _]. exact HP. Qed.

Lemma returns_only_bind {W A B} (P : B → Prop) (m : M W A) (f : A → M W B) :
  (∀ a, returns_only P (f a)) → returns_only P (m ≫= f).
Proof.
  intros Hf w b t w' Hrun. unfold mbind, M_bind in Hrun.
  destruct (m w) as [[[e|a] t1] w1]; [discriminate|].
  destruct (f a w1) as [[r t2] w2] eqn:Hfa. injection Hrun as -> _ _.
  exact (Hf a w1 b t2 w2 Hfa).
Qed.

(** Lines 66 and 72: a length is an absolute value or a count. *)
Lemma fetch_record_lengths {W} (R : remote W) (n : Z) :
  returns_only (λ '(_, gene_length, protein_length),
                  (0 ≤ gene_length)%Z ∧ (0 ≤ protein_length)%Z)
               (fetch_record R n).
Proof.
  unfold fetch_record.
  repeat (apply returns_only_bind; intros ?).
  apply returns_only_ret. split; lia.
Qed.

Lemma fetch_gene_data_row {W} (R : remote W) gene_id accession gene_len protein_len t
    (w w' : W) :
  fetch_gene_data R gene_id w = (inr (accession, gene_len, protein_len), t, w') →
  row_absent_or_complete (Row gene_id accession gene_len protein_len).
Proof.
  destruct (py_int gene_id) as [e|n] eqn:Hint.
  - rewrite (fetch_gene_data_not_an_integer R gene_id e w Hint).
    intros [= <- <- <- _ _]. by left.
  - destruct (fetch_record R n (sleep_uniform R w)) as [[[e|[[a g] l]] t'] w''] eqn:Hrec.
    + rewrite (fetch_gene_data_record_fails R gene_id n e t' w w'' Hint Hrec).
      intros [= <- <- <- _ _]. by left.
    + rewrite (fetch_gene_data_record_found R gene_id n a g l t' w w'' Hint Hrec).
      intros [= <- <- <- _ _]. right. exists a, g, l.
      pose proof (fetch_record_lengths R n _ _ _ _ Hrec) as [Hg Hl].
      by split_and!.
Qed.

Lemma fetch_rows_rows {W} (R : remote W) gene_ids data data' t (w w' : W) :
  fetch_rows R gene_ids data w = (inr data', t, w') →
  Forall row_absent_or_complete data →
  Forall row_absent_or_complete data'.
Proof.
  revert data t w w'.
  induction gene_ids as [|gene_id gene_ids IH]; intros data t w w'.
  - by intros [= <- _ _].
  - destruct (fetch_gene_data_returns R gene_id w) as ([[a g] l] & t1 & w1 & Hfetch).
    rewrite (fetch_rows_cons _ _ _ _ _ _ _ _ _ _ Hfetch).
    destruct (fetch_rows R gene_ids (data ++ [Row gene_id a g l]) w1)
      as [[r t2] w2] eqn:Hrest.
    intros [= -> _ _] Hdata. apply (IH _ _ _ _ Hrest).
    apply Forall_app. split; [exact Hdata|].
    apply Forall_singleton. by apply (fetch_gene_data_row R _ _ _ _ _ _ _ Hfetch).
Qed.

(** X6: in every table [process_gene_list] writes, a row has accession,
    gene length and protein length either all three absent or all three
    present, and a length that is present is not negative. *)
Theorem written_rows_absent_or_complete {W} (R : remote W) (fs : files)
    (input_file output_file : string) (data : list row) (w : W) :
  ToExcel output_file data ∈ (observed (process_gene_list R fs input_file) w).2 →
  Forall row_absent_or_complete data.
Proof.
  intros Hin.
  destruct (process_gene_list_written R fs input_file output_file data w Hin)
    as (email & gene_ids & t & w' & _ & _ & Hrows & _).
  by apply (fetch_rows_rows R gene_ids [] data t w w' Hrows).
Qed.

Lemma written_rows_absent_or_complete_witness :
  Forall row_absent_or_complete
    [Row (PInt 7157) (Some (PStr "NP_000537.3")) (Some 25759%Z) (Some 393%Z);
     Row (PStr "x") None None None;
     Row (PInt 1017) None None None;
     Row (PInt 5) None None None;
     Row (PStr " 7_157 ") (Some (PStr "NP_000537.3")) (Some 25759%Z) (Some 393%Z)].
Proof.
  exact (written_rows_absent_or_complete stub samples "samples.xlsx"
           "samples_output.xlsx" _ 0 samples_table_written).
Defined.

(** ** The record fetcher, further *)

(** X7: the genomic coordinates of the product, read at line 63 and not
    used afterwards, still decide the row: when that walk fails, although
    the accession is there, [fetch_gene_data] prints the failure and returns
    three [None]; the gene length is not printed and the protein database is
    not asked. *)
Theorem unused_genomic_coords_fail_the_row {W} (R : remote W)
    (gene_id : pyval) (n : Z) (w w1 : W)
    (record locus product accession : pyval) (e : exn) :
  py_int gene_id = inr n →
  efetch_gene R n (sleep_uniform R w) = (inr record, w1) →
  getpath record locus_path = inr locus →
  getpath locus product_path = inr product →
  getitem product (Key "Gene-commentary_accession") = inr accession →
  getpath product genomic_coords_path = inl e →
  fetch_gene_data R gene_id w
  = (inr (None, None, None), [Print (ErrorProcessing (PInt n) e)], w1).
Proof.
  intros Hint Hgene Hlocus Hproduct Hacc Hcoords.
  apply (fetch_gene_data_record_fails R gene_id n e [] w w1 Hint).
  unfold fetch_record.
  rewrite (bind_inr _ _ _ record [] w1) by (unfold call; by rewrite Hgene).
  rewrite Hlocus, lift_bind, Hproduct, lift_bind, Hacc, lift_bind.
  by rewrite Hcoords, lift_raise_bind.
Qed.

Lemma unused_genomic_coords_fail_the_row_witness :
  getpath (gene_record_without_coords "NP_000537.3" "7661779" "7687538")
    (seq_interval_path "Seq-interval_to") ≫= py_int = inr 7687538%Z ∧
  getpath (gene_record_without_coords "NP_000537.3" "7661779" "7687538")
    (seq_interval_path "Seq-interval_from") ≫= py_int = inr 7661779%Z ∧
  fetch_gene_data stub_without_coords (PInt 7157) 0
  = (inr (None, None, None),
     [Print (ErrorProcessing (PInt 7157)
               (Exn KeyError "Gene-commentary_genomic-coords"))], 2).
Proof.
  split; [reflexivity|]. split; [reflexivity|].
  eapply (unused_genomic_coords_fail_the_row stub_without_coords
            (PInt 7157) 7157 0 2); reflexivity.
Defined.

(** X8: the fetch depends on the cell through its integer only: two cells
    that [int] converts to the same number give the same result, the same
    printed lines and the same lookups. *)
Theorem same_integer_same_fetch {W} (R : remote W) (gene_id gene_id' : pyval)
    (n : Z) (w : W) :
  py_int gene_id = inr n →
  py_int gene_id' = inr n →
  fetch_gene_data R gene_id w = fetch_gene_data R gene_id' w.
Proof.
  intros Hint Hint'.
  destruct (fetch_record R n (sleep_uniform R w)) as [[[e|[[a g] l]] t] w'] eqn:Hrec.
  - rewrite (fetch_gene_data_record_fails R gene_id n e t w w' Hint Hrec).
    by rewrite (fetch_gene_data_record_fails R gene_id' n e t w w' Hint' Hrec).
  - rewrite (fetch_gene_data_record_found R gene_id n a g l t w w' Hint Hrec).
    by rewrite (fetch_gene_data_record_found R gene_id' n a g l t w w' Hint' Hrec).
Qed.

Lemma same_integer_same_fetch_witness :
  fetch_gene_data stub (PInt 7157) 0 = fetch_gene_data stub (PStr " 7_157 ") 0.
Proof.
  exact (same_integer_same_fetch stub (PInt 7157) (PStr " 7_157 ") 7157 0
           eq_refl eq_refl).
Defined.

(** ** The loop, piece by piece *)

Lemma ret_bind_run {W A B} (a : A) (f : A → M W B) w : (mret a ≫= f) w = f a w.
Proof. unfold mbind, M_bind, mret, M_ret. by destruct (f a w) as [[r t] w']. Qed.

Lemma bind_assoc_run {W A B C} (m : M W A) (f : A → M W B) (g : B → M W C) w :
  ((m ≫= f) ≫= g) w = (m ≫= λ a, f a ≫= g) w.
Proof.
  unfold mbind, M_bind.
  destruct (m w) as [[[e|a] t] w1]; [reflexivity|].
  destruct (f a w1) as [[[e|b] t1] w2]; [reflexivity|].
  destruct (g b w2) as [[r t2] w3]. by rewrite app_assoc.
Qed.

Lemma bind_ext_run {W A B} (m : M W A) (f g : A → M W B) w :
  (∀ a w1, f a w1 = g a w1) → (m ≫= f) w = (m ≫= g) w.
Proof.
  intros Hfg. unfold mbind, M_bind.
  destruct (m w) as [[[e|a] t] w1]; [reflexivity|]. by rewrite Hfg.
Qed.

(** X9: the loop over a list of identifiers in two parts is the loop over
    the first part followed, from the rows, the printed lines and the world
    it leaves, by the loop over the second part. *)
Theorem fetch_rows_app {W} (R : remote W) (gene_ids gene_ids' : list pyval)
    (data : list row) (w : W) :
  fetch_rows R (gene_ids ++ gene_ids') data w
  = (fetch_rows R gene_ids data ≫= fetch_rows R gene_ids') w.
Proof.
  revert data w. induction gene_ids as [|gene_id gene_ids IH]; intros data w.
  - cbn [app fetch_rows]. by rewrite ret_bind_run.
  - cbn [app fetch_rows]. rewrite bind_assoc_run. apply bind_ext_run.
    intros [[a g] l] w1. apply IH.
Qed.

(** ** The walk through the record *)

Lemma getpath_app (v : pyval) (path path' : list subscript) :
  getpath v (path ++ path') = getpath v path ≫= λ x, getpath x path'.
Proof.
  revert v. induction path as [|sub path IH]; intros v; [reflexivity|].
  cbn [app getpath]. destruct (getitem v sub) as [e|x]; [reflexivity|]. apply IH.
Qed.

(** X13: the interval endpoints of lines 64-65 are read inside the locus of
    line 59: once [record[0]['Entrezgene_locus'][0]] has been found, walking
    the record again from its root for an endpoint is walking that locus
    through [Gene-commentary_seqs], whatever the products of the locus
    hold. *)
Theorem interval_read_from_locus (record locus : pyval) (field : string) :
  getpath record locus_path = inr locus →
  getpath record (seq_interval_path field)
  = getpath locus (interval_in_locus_path field).
Proof.
  intros Hlocus.
  change (seq_interval_path field) with (locus_path ++ interval_in_locus_path field).
  by rewrite getpath_app, Hlocus.
Qed.

Lemma interval_read_from_locus_witness :
  getpath (gene_record "NP_000537.3" "7661779" "7687538")
    (seq_interval_path "Seq-interval_to")
  = getpath
      (PDict [("Gene-commentary_products", PList [PDict [
                ("Gene-commentary_products", PList [PDict [
                  ("Gene-commentary_accession", PStr "NP_000537.3");
                  ("Gene-commentary_genomic-coords", PList [PDict [
                    ("Seq-loc_mix", PDict [("Seq-loc-mix", PList [PDict [
                      ("Seq-loc_int", PDict [("Seq-interval", PDict [])])]])])]])]])]]);
              ("Gene-commentary_seqs", PList [PDict [
                ("Seq-loc_int", PDict [("Seq-interval", PDict [
                  ("Seq-interval_from", PStr "7661779");
                  ("Seq-interval_to", PStr "7687538")])])]])])
      (interval_in_locus_path "Seq-interval_to").
Proof.
  apply (interval_read_from_locus (gene_record "NP_000537.3" "7661779" "7687538")).
  reflexivity.
Defined.

(** ** The output file name, further *)

Section OutputPath.
Local Open Scope Z_scope.

Lemma append_inv_head p q q' : p +:+ q = p +:+ q' → q = q'.
Proof.
  induction p as [|a p IH]; [done|].
  rewrite !append_String. intros [= H]. by apply IH.
Qed.

Lemma get_append_length p q : String.get (String.length p) (p +:+ q) = String.get 0 q.
Proof. induction p as [|a p IH]; [reflexivity|]. by rewrite append_String. Qed.

Lemma str_take_append p q k :
  str_take (String.length p + k) (p +:+ q) = p +:+ str_take k q.
Proof.
  induction p as [|a p IH]; [reflexivity|].
  rewrite !append_String. cbn [String.length Nat.add str_take]. by rewrite IH.
Qed.

Lemma str_drop_append p q k :
  str_drop (String.length p + k) (p +:+ q) = str_drop k q.
Proof.
  induction p as [|a p IH]; [reflexivity|].
  rewrite append_String. cbn [String.length Nat.add str_drop]. exact IH.
Qed.

Lemma not_dot_scan (a : ascii) (p : string) (i n : nat) :
  String.get i p = Some a → a ≠ "."%char → splitext_scan p i (S n) = true.
Proof.
  intros Hget Hne. cbn [splitext_scan]. rewrite Hget.
  destruct a as [[] [] [] [] [] [] [] []]; try reflexivity. by destruct Hne.
Qed.

(** The scan finds any character that is not a dot in its range. *)
Lemma splitext_scan_finds (p : string) (i n j : nat) (a : ascii) :
  (i ≤ j < i + n)%nat → String.get j p = Some a → a ≠ "."%char →
  splitext_scan p i n = true.
Proof.
  revert i. induction n as [|n IH]; intros i Hrange Hget Hne; [lia|].
  destruct (decide (i = j)) as [->|Hij]; [by apply (not_dot_scan a)|].
  cbn [splitext_scan].
  destruct (String.get i p) as [b|]; [|reflexivity].
  destruct (decide (b = "."%char)) as [->|Hb].
  - apply IH; [lia|done..].
  - destruct b as [[] [] [] [] [] [] [] []]; try reflexivity. by destruct Hb.
Qed.

Lemma splitext_output root :
  splitext (root +:+ "_output.xlsx") = (root +:+ "_output", ".xlsx").
Proof.
  unfold splitext.
  pose proof (rfind_bounds "/" root) as Hsep.
  assert (rfind "/" (root +:+ "_output.xlsx") = rfind "/" root) as ->
    by (by rewrite rfind_app).
  assert (rfind "." (root +:+ "_output.xlsx") = Z.of_nat (String.length root) + 7) as ->
    by (by rewrite rfind_app).
  assert ((rfind "/" root <? Z.of_nat (String.length root) + 7) = true) as ->
    by (apply Z.ltb_lt; lia).
  rewrite (splitext_scan_finds _ _ _ (String.length root) "_"); cycle 1.
  { lia. }
  { by rewrite get_append_length. }
  { discriminate. }
  replace (Z.to_nat (Z.of_nat (String.length root) + 7))
    with (String.length root + 7)%nat by lia.
  by rewrite str_take_append, str_drop_append.
Qed.

End OutputPath.

(** X11: the output path always carries the extension [.xlsx], and what
    precedes it is the input path without its extension followed by
    [_output]: [splitext] takes the output path apart into exactly these
    two. *)
Theorem splitext_output_file_name (input_file : string) :
  splitext (output_file_name input_file)
  = ((splitext input_file).1 +:+ "_output", ".xlsx").
Proof. unfold output_file_name. apply splitext_output. Qed.

(** X12: the output path is never the input path: the table is not written
    over the sheet it was read from. *)
Theorem output_file_name_differs (input_file : string) :
  String.eqb (output_file_name input_file) input_file = false.
Proof.
  apply String.eqb_neq. intros Heq.
  destruct (splitext_parts input_file) as [Hparts Hext].
  unfold output_file_name in Heq. rewrite Hparts in Heq at 2.
  apply append_inv_head in Heq.
  destruct Hext as [Hext | (t & Hext & _)]; rewrite Hext in Heq; discriminate.
Qed.

(** ** Printed lines and rows *)

Lemma call_bind {W A B} (f : W → result A * W) (g : A → M W B) w :
  (call f ≫= g) w
  = match f w with
    | (inl e, w1) => (inl e, [], w1)
    | (inr a, w1) => g a w1
    end.
Proof.
  unfold mbind, M_bind, call. destruct (f w) as [[e|a] w1]; [reflexivity|].
  by destruct (g a w1) as [[? ?] ?].
Qed.

(** The three ways [fetch_record] can end, with what it has printed by
    then. *)
Lemma fetch_record_cases {W} (R : remote W) (n : Z) (w : W) :
  let '(r, t, _) := fetch_record R n w in
  (∃ e, r = inl e ∧ t = []) ∨
  (∃ e gene_length, r = inl e ∧ t = [Print (GeneComplete n gene_length)]) ∨
  (∃ accession gene_length protein_length,
     r = inr (accession, gene_length, protein_length) ∧
     t = [Print (GeneComplete n gene_length);
          Print (AccessionComplete accession protein_length)]).
Proof.
  unfold fetch_record. rewrite call_bind.
  destruct (efetch_gene R n w) as [[e|record] w1]; [left; by eexists|].
  destruct (getpath record locus_path) as [e|locus];
    [rewrite lift_raise_bind; left; by eexists | rewrite lift_bind].
  destruct (getpath locus product_path) as [e|product];
    [rewrite lift_raise_bind; left; by eexists | rewrite lift_bind].
  destruct (getitem product (Key "Gene-commentary_accession")) as [e|accession];
    [rewrite lift_raise_bind; left; by eexists | rewrite lift_bind].
  destruct (getpath product genomic_coords_path) as [e|coords];
    [rewrite lift_raise_bind; left; by eexists | rewrite lift_bind].
  destruct (getpath record (seq_interval_path "Seq-interval_to") ≫= py_int)
    as [e|gene_end];
    [rewrite lift_raise_bind; left; by eexists | rewrite lift_bind].
  destruct (getpath record (seq_interval_path "Seq-interval_from") ≫= py_int)
    as [e|gene_start];
    [rewrite lift_raise_bind; left; by eexists | rewrite lift_bind].
  rewrite emit_bind, call_bind.
  destruct (efetch_protein R accession w1) as [[e|seq] w2];
    right; [left | right]; by repeat eexists.
Qed.

(** X14: the lines [fetch_gene_data] prints agree with the row it returns.
    A complete row comes with exactly two lines, which carry its gene length
    and its accession and protein length; an absent row comes with exactly
    one error line, preceded by at most the line of a gene length that is
    then not in the row. *)
Theorem printed_lines_match_row {W} (R : remote W) (gene_id : pyval)
    (accession : option pyval) (gene_len protein_len : option Z)
    (t : list event) (w w' : W) :
  fetch_gene_data R gene_id w = (inr (accession, gene_len, protein_len), t, w') →
  (∃ n acc gl pl,
     py_int gene_id = inr n ∧
     accession = Some acc ∧ gene_len = Some gl ∧ protein_len = Some pl ∧
     t = [Print (GeneComplete n gl); Print (AccessionComplete acc pl)]) ∨
  (∃ e,
     accession = None ∧ gene_len = None ∧ protein_len = None ∧
     (t = [Print (ErrorProcessing (gene_id_at_handler gene_id) e)] ∨
      ∃ n gl, py_int gene_id = inr n ∧
              t = [Print (GeneComplete n gl); Print (ErrorProcessing (PInt n) e)])).
Proof.
  unfold gene_id_at_handler.
  destruct (py_int gene_id) as [e|n] eqn:Hint.
  - rewrite (fetch_gene_data_not_an_integer R gene_id e w Hint).
    intros [= <- <- <- <- _]. right. exists e. split_and!; try done. by left.
  - pose proof (fetch_record_cases R n (sleep_uniform R w)) as Hcases.
    destruct (fetch_record R n (sleep_uniform R w)) as [[r t'] w''] eqn:Hrec.
    destruct Hcases
      as [(e & -> & ->) | [(e & gl & -> & ->) | (acc & gl & pl & -> & ->)]].
    + rewrite (fetch_gene_data_record_fails R gene_id n e _ w w'' Hint Hrec).
      intros [= <- <- <- <- _]. right. exists e. split_and!; try done. by left.
    + rewrite (fetch_gene_data_record_fails R gene_id n e _ w w'' Hint Hrec).
      intros [= <- <- <- <- _]. right. exists e. split_and!; try done.
      right. by exists n, gl.
    + rewrite (fetch_gene_data_record_found R gene_id n acc gl pl _ w w'' Hint Hrec).
      intros [= <- <- <- <- _]. left. by exists n, acc, gl, pl.
Qed.

Lemma printed_lines_match_row_witness :
  (∃ n acc gl pl,
     py_int (PInt 348) = inr n ∧
     None = Some acc ∧ None = Some gl ∧ None = Some pl ∧
     [Print (GeneComplete 348 3597);
      Print (ErrorProcessing (PInt 348) (Exn ValueError "No records found in handle"))]
     = [Print (GeneComplete n gl); Print (AccessionComplete acc pl)]) ∨
  (∃ e,
     None = (None : option pyval) ∧ None = (None : option Z) ∧ None = (None : option Z) ∧
     ([Print (GeneComplete 348 3597);
       Print (ErrorProcessing (PInt 348) (Exn ValueError "No records found in handle"))]
      = [Print (ErrorProcessing (gene_id_at_handler (PInt 348)) e)] ∨
      ∃ n gl, py_int (PInt 348) = inr n ∧
              [Print (GeneComplete 348 3597);
               Print (ErrorProcessing (PInt 348)
                        (Exn ValueError "No records found in handle"))]
              = [Print (GeneComplete n gl); Print (ErrorProcessing (PInt n) e)])).
Proof.
  exact (printed_lines_match_row stub (PInt 348) None None None _ 0 3 eq_refl).
Defined.
